(** * A shallow embedding of [http_server.py]

    The server reads one request per [recv], validates the request line,
    routes the requested URL and answers with one of four responses
    (200, 302, 404, 500) or stops.  This file embeds the request parser,
    the router and the response builders as Rocq functions and proves the
    properties stated by the specification about them.

    Layout:
    - [Py]      the Python built-ins the server calls ([str] methods,
                [int], integer true division, [str] of a float, UTF-8
                [encode]), modelled on Unicode code points;
    - [Server]  the constants and functions of [http_server.py];
    - the facts about both. *)

From Stdlib Require Import ZArith NArith List Lia Bool.
From Stdlib Require Import Strings.String Strings.Ascii Strings.Byte.
From stdpp Require Import gmap.
Import ListNotations.

(* ================================================================== *)
(** * Python built-ins *)
(* ================================================================== *)

Module Py.

(** A Python [str] is a sequence of Unicode code points, [bytes] a
    sequence of octets. *)
Definition char := N.
Definition str := list char.
Definition bytes := list byte.

(** ASCII literals. *)
Definition lit (x : string) : str := List.map N_of_ascii (list_ascii_of_string x).

(** Exceptions the modelled calls can raise. *)
Inductive exn :=
| ValueError
| OverflowError
| ZeroDivisionError
| OSError
| UnicodeEncodeError
| UnicodeDecodeError
| KeyError
| SocketTimeout.

Inductive result (A : Type) :=
| Ok (a : A)
| Raise (e : exn).
Arguments Ok {A} a.
Arguments Raise {A} e.

Definition bind {A B} (r : result A) (k : A -> result B) : result B :=
  match r with
  | Ok a => k a
  | Raise e => Raise e
  end.

(** ** Character classes (Unicode 14 tables, as ranges of code points) *)

Definition in_ranges (tbl : list (N * N)) (c : char) : bool :=
  existsb (fun r => (fst r <=? c)%N && (c <=? snd r)%N) tbl.

(** [str.isspace] of one character; these are the separators of
    [str.split()] and the padding [int] ignores. *)
Definition space_ranges : list (N * N) :=
  [ (9, 13); (28, 32); (133, 133); (160, 160); (5760, 5760); (8192, 8202);
    (8232, 8233); (8239, 8239); (8287, 8287); (12288, 12288) ]%N.

Definition isspace (c : char) : bool := in_ranges space_ranges c.

(** Characters with a Unicode numeric value (Numeric_Type Decimal, Digit
    or Numeric): what [str.isnumeric] accepts. *)
Definition numeric_ranges : list (N * N) :=
  [
    (48, 57); (178, 179); (185, 185); (188, 190); (1632, 1641); (1776, 1785);
    (1984, 1993); (2406, 2415); (2534, 2543); (2548, 2553); (2662, 2671); (2790, 2799);
    (2918, 2927); (2930, 2935); (3046, 3058); (3174, 3183); (3192, 3198); (3302, 3311);
    (3416, 3422); (3430, 3448); (3558, 3567); (3664, 3673); (3792, 3801); (3872, 3891);
    (4160, 4169); (4240, 4249); (4969, 4988); (5870, 5872); (6112, 6121); (6128, 6137);
    (6160, 6169); (6470, 6479); (6608, 6618); (6784, 6793); (6800, 6809); (6992, 7001);
    (7088, 7097); (7232, 7241); (7248, 7257); (8304, 8304); (8308, 8313); (8320, 8329);
    (8528, 8578); (8581, 8585); (9312, 9371); (9450, 9471); (10102, 10131); (11517, 11517);
    (12295, 12295); (12321, 12329); (12344, 12346); (12690, 12693); (12832, 12841); (12872, 12879);
    (12881, 12895); (12928, 12937); (12977, 12991); (13317, 13317); (13443, 13443); (14378, 14378);
    (15181, 15181); (19968, 19968); (19971, 19971); (19975, 19975); (19977, 19977); (20061, 20061);
    (20108, 20108); (20116, 20116); (20118, 20118); (20159, 20160); (20191, 20191); (20200, 20200);
    (20237, 20237); (20336, 20336); (20740, 20740); (20806, 20806); (20841, 20841); (20843, 20843);
    (20845, 20845); (21313, 21313); (21315, 21317); (21324, 21324); (21441, 21444); (22235, 22235);
    (22769, 22769); (22777, 22777); (24186, 24186); (24318, 24319); (24332, 24334); (24336, 24336);
    (25342, 25342); (25420, 25420); (26578, 26578); (28422, 28422); (29590, 29590); (30334, 30334);
    (32902, 32902); (33836, 33836); (36014, 36014); (36019, 36019); (36144, 36144); (38433, 38433);
    (38470, 38470); (38476, 38476); (38520, 38520); (38646, 38646); (42528, 42537); (42726, 42735);
    (43056, 43061); (43216, 43225); (43264, 43273); (43472, 43481); (43504, 43513); (43600, 43609);
    (44016, 44025); (63851, 63851); (63859, 63859); (63864, 63864); (63922, 63922); (63953, 63953);
    (63955, 63955); (63997, 63997); (65296, 65305); (65799, 65843); (65856, 65912); (65930, 65931);
    (66273, 66299); (66336, 66339); (66369, 66369); (66378, 66378); (66513, 66517); (66720, 66729);
    (67672, 67679); (67705, 67711); (67751, 67759); (67835, 67839); (67862, 67867); (68028, 68029);
    (68032, 68047); (68050, 68095); (68160, 68168); (68221, 68222); (68253, 68255); (68331, 68335);
    (68440, 68447); (68472, 68479); (68521, 68527); (68858, 68863); (68912, 68921); (69216, 69246);
    (69405, 69414); (69457, 69460); (69573, 69579); (69714, 69743); (69872, 69881); (69942, 69951);
    (70096, 70105); (70113, 70132); (70384, 70393); (70736, 70745); (70864, 70873); (71248, 71257);
    (71360, 71369); (71472, 71483); (71904, 71922); (72016, 72025); (72784, 72812); (73040, 73049);
    (73120, 73129); (73664, 73684); (74752, 74862); (92768, 92777); (92864, 92873); (93008, 93017);
    (93019, 93025); (93824, 93846); (119520, 119539); (119648, 119672); (120782, 120831); (123200, 123209);
    (123632, 123641); (125127, 125135); (125264, 125273); (126065, 126123); (126125, 126127); (126129, 126132);
    (126209, 126253); (126255, 126269); (127232, 127244); (130032, 130041); (131073, 131073); (131172, 131172);
    (131298, 131298); (131361, 131361); (133418, 133418); (133507, 133507); (133516, 133516); (133532, 133532);
    (133866, 133866); (133885, 133885); (133913, 133913); (140176, 140176); (141720, 141720); (146203, 146203);
    (156269, 156269); (194704, 194704) ]%N.

Definition isnumeric_char (c : char) : bool := in_ranges numeric_ranges c.

(** The code points of the digit zero of every Unicode decimal digit
    block (category Nd); the nine code points after each are its digits
    one to nine.  These are the digits [int] reads. *)
Definition decimal_zeros : list N :=
  [
    48; 1632; 1776; 1984; 2406; 2534; 2662; 2790; 2918; 3046;
    3174; 3302; 3430; 3558; 3664; 3792; 3872; 4160; 4240; 6112;
    6160; 6470; 6608; 6784; 6800; 6992; 7088; 7232; 7248; 42528;
    43216; 43264; 43472; 43504; 43600; 44016; 65296; 66720; 68912; 69734;
    69872; 69942; 70096; 70384; 70736; 70864; 71248; 71360; 71472; 71904;
    72016; 72784; 73040; 73120; 92768; 92864; 93008; 120782; 120792; 120802;
    120812; 120822; 123200; 123632; 125264; 130032 ]%N.

Definition decimal_value (c : char) : option Z :=
  match find (fun z => (z <=? c)%N && (c <=? z + 9)%N) decimal_zeros with
  | Some z => Some (Z.of_N (c - z))
  | None => None
  end.

(** ** [str] methods *)

(** [s.startswith(p)] *)
Fixpoint startswith (p s : str) : bool :=
  match p, s with
  | [], _ => true
  | _ :: _, [] => false
  | a :: p', b :: s' => (a =? b)%N && startswith p' s'
  end.

(** [a == b] *)
Fixpoint str_eqb (a b : str) : bool :=
  match a, b with
  | [], [] => true
  | x :: a', y :: b' => (x =? y)%N && str_eqb a' b'
  | _, _ => false
  end.

(** [s.endswith(p)] *)
Definition endswith (p s : str) : bool := startswith (rev p) (rev s).

(** [p in s] *)
Fixpoint contains (p s : str) : bool :=
  startswith p s ||
  match s with
  | [] => false
  | _ :: s' => contains p s'
  end.

(** [s.split(sep)] for a non-empty separator (every call site passes a
    non-empty literal; Python raises [ValueError] on an empty one).
    [skip] counts the characters of a separator still to be passed over,
    [cur] is the piece being read, reversed. *)
Fixpoint split_aux (sep : str) (skip : nat) (cur : str) (s : str) : list str :=
  match s with
  | [] => [rev cur]
  | c :: s' =>
      match skip with
      | S k => split_aux sep k cur s'
      | O =>
          if startswith sep s
          then rev cur :: split_aux sep (length sep - 1) [] s'
          else split_aux sep 0 (c :: cur) s'
      end
  end.

Definition split (sep s : str) : list str := split_aux sep 0 [] s.

(** [s.split()]: the maximal runs of non-space characters.  [cur] is the
    run being read, reversed; runs are never empty. *)
Fixpoint split_ws_aux (cur : str) (s : str) : list str :=
  match s with
  | [] => match cur with [] => [] | _ => [rev cur] end
  | c :: s' =>
      if isspace c
      then match cur with
           | [] => split_ws_aux [] s'
           | _ => rev cur :: split_ws_aux [] s'
           end
      else split_ws_aux (c :: cur) s'
  end.

Definition split_ws (s : str) : list str := split_ws_aux [] s.

(** [s.lstrip(chars)], [s.rstrip(chars)], [s.strip(chars)] *)
Fixpoint lstrip_by (drop : char -> bool) (s : str) : str :=
  match s with
  | [] => []
  | c :: s' => if drop c then lstrip_by drop s' else s
  end.

Definition rstrip_by (drop : char -> bool) (s : str) : str :=
  rev (lstrip_by drop (rev s)).

Definition strip_by (drop : char -> bool) (s : str) : str :=
  rstrip_by drop (lstrip_by drop s).

Definition mem_char (chars : str) (c : char) : bool :=
  existsb (N.eqb c) chars.

Definition strip (chars s : str) : str := strip_by (mem_char chars) s.

(** [s.isnumeric()]: at least one character, all of them numeric. *)
Definition isnumeric (s : str) : bool :=
  match s with
  | [] => false
  | _ => forallb isnumeric_char s
  end.

(** Indexing a list of strings: [l[i]] and [l[-1]].  Every list the
    server indexes is a result of [split], hence non-empty, or has been
    checked for its length; out of range (where Python raises
    [IndexError]) the empty string stands in. *)
Definition item (l : list str) (i : nat) : str := nth i l [].
Definition item_last (l : list str) : str := List.last l [].

(** ** Integers: [str(n)] and [int(s)] *)

Definition digit_char (d : Z) : char := Z.to_N (48 + d).

Fixpoint digits_fuel (fuel : nat) (n : Z) : str :=
  match fuel with
  | O => []
  | S f =>
      if (n <? 10)%Z then [digit_char n]
      else digits_fuel f (n / 10)%Z ++ [digit_char (n mod 10)%Z]
  end.

(** The decimal digits of [n >= 0], most significant first; a number has
    no more decimal digits than binary ones. *)
Definition str_of_nonneg (n : Z) : str :=
  digits_fuel (S (Z.to_nat (Z.log2 n))) n.

(** [str(n)] *)
Definition str_of_int (n : Z) : str :=
  if (n <? 0)%Z then 45%N :: str_of_nonneg (- n) else str_of_nonneg n.

(** The digits of an [int] literal: decimal digits of any script, with
    single underscores allowed between two digits. *)
Fixpoint int_digits (s : str) (acc : Z) (after_digit : bool) : option Z :=
  match s with
  | [] => if after_digit then Some acc else None
  | c :: s' =>
      match decimal_value c with
      | Some d => int_digits s' (10 * acc + d)%Z true
      | None =>
          if (c =? 95)%N && after_digit then int_digits s' acc false else None
      end
  end.

(** The largest number of digits [int] converts
    ([sys.int_info.default_max_str_digits]); leading zeros count,
    underscores, sign and white space do not. *)
Definition max_str_digits : Z := 4300.

Definition count_digits (s : str) : Z :=
  Z.of_nat (length (List.filter (fun c => match decimal_value c with
                                     | Some _ => true
                                     | None => false
                                     end) s)).

(** [int(s)]: surrounding white space is ignored, then an optional sign,
    then the digits; [ValueError] when this is not the form of [s] or
    when there are more than [max_str_digits] digits. *)
Definition int_of_str (s : str) : result Z :=
  let t := strip_by isspace s in
  let '(neg, body) :=
    match t with
    | 43%N :: r => (false, r)
    | 45%N :: r => (true, r)
    | _ => (false, t)
    end in
  match int_digits body 0 false with
  | Some v =>
      if (max_str_digits <? count_digits body)%Z then Raise ValueError
      else Ok (if neg then (- v)%Z else v)
  | None => Raise ValueError
  end.

(** ** Floats

    The only floats of the server are quotients of two integers, so they
    are finite: a sign, and a magnitude [fmant * 2 ^ fexp] that is zero,
    normal ([2^52 <= fmant < 2^53], [-1074 <= fexp <= 971]) or subnormal
    ([fmant < 2^52], [fexp = -1074]), as a C [double] is. *)

Record float := mkfloat { fneg : bool; fmant : Z; fexp : Z }.

Local Open Scope Z_scope.

(** [floor (log2 (p / q))] for positive [p] and [q]. *)
Definition floor_log2_ratio (p q : Z) : Z :=
  let d := Z.log2 p - Z.log2 q in
  if p * 2 ^ Z.max 0 (- d) <? q * 2 ^ Z.max 0 d then d - 1 else d.

(** [n / d] rounded to the nearest integer, halves to the even one. *)
Definition round_half_even (n d : Z) : Z :=
  let q := n / d in
  match 2 * (n mod d) ?= d with
  | Lt => q
  | Gt => q + 1
  | Eq => if Z.even q then q else q + 1
  end.

(** The double nearest to [p / q] (positive [p], [q]), halves to the even
    mantissa; [None] when it exceeds the largest double. *)
Definition round_binary64 (p q : Z) : option (Z * Z) :=
  let e := Z.max (floor_log2_ratio p q - 52) (- 1074) in
  let m := round_half_even (p * 2 ^ Z.max 0 (- e)) (q * 2 ^ Z.max 0 e) in
  let '(m, e) := if m =? 2 ^ 53 then (2 ^ 52, e + 1) else (m, e) in
  if 1024 <? e + 53 then None else Some (m, e).

(** [a / b] on two [int]s: the correctly rounded quotient. *)
Definition int_truediv (a b : Z) : result float :=
  if b =? 0 then Raise ZeroDivisionError
  else if a =? 0 then Ok (mkfloat (b <? 0) 0 0)
  else
    match round_binary64 (Z.abs a) (Z.abs b) with
    | Some (m, e) => Ok (mkfloat (xorb (a <? 0) (b <? 0)) m e)
    | None => Raise OverflowError
    end.

(** *** [str(x)] of a float: the shortest decimal that reads back as [x] *)

(** Compare the decimal [c * 10 ^ j] with the binary [n * 2 ^ t]. *)
Definition cmp_dec_bin (c j n t : Z) : comparison :=
  (c * 10 ^ Z.max 0 j * 2 ^ Z.max 0 (- t))
  ?= (n * 2 ^ Z.max 0 t * 10 ^ Z.max 0 (- j)).

(** Does the decimal [c * 10 ^ j] round to the double [m * 2 ^ e]?  It
    does when it lies between the midpoints to the two neighbouring
    doubles, a midpoint itself going to the even mantissa.  In units of
    [2 ^ (e - 2)] the double is [4 * m], the upper midpoint [4 * m + 2]
    and the lower one [4 * m - 2], or [4 * m - 1] just above a power of
    two, where the doubles below are twice as dense. *)
Definition rounds_to (m e c j : Z) : bool :=
  let lo := if (m =? 2 ^ 52) && (- 1074 <? e) then 4 * m - 1 else 4 * m - 2 in
  let hi := 4 * m + 2 in
  match cmp_dec_bin c j lo (e - 2), cmp_dec_bin c j hi (e - 2) with
  | Gt, Lt => true
  | Eq, Lt | Gt, Eq | Eq, Eq => Z.even m
  | _, _ => false
  end.

Definition numdigits (n : Z) : Z := Z.of_nat (length (str_of_nonneg n)).

(** The position of the decimal point: the [E] with
    [10 ^ (E - 1) <= m * 2 ^ e < 10 ^ E], for [m > 0]. *)
Definition decimal_point (m e : Z) : Z :=
  let p := m * 2 ^ Z.max 0 e in
  let q := 2 ^ Z.max 0 (- e) in
  if q <=? p then numdigits (p / q) else 1 - numdigits ((q - 1) / p).

(** [floor (m * 2 ^ e / 10 ^ j)] *)
Definition floor_scaled (m e j : Z) : Z :=
  (m * 2 ^ Z.max 0 e * 10 ^ Z.max 0 (- j))
  / (2 ^ Z.max 0 (- e) * 10 ^ Z.max 0 j).

(** The decimal with [k] significant digits that rounds to [m * 2 ^ e],
    if there is one: of the two multiples of [10 ^ (E - k)] around the
    double, the one that rounds to it, the nearer one if both do. *)
Definition candidate (m e E k : Z) : option Z :=
  let j := E - k in
  let c1 := floor_scaled m e j in
  let c2 := c1 + 1 in
  match rounds_to m e c1 j, rounds_to m e c2 j with
  | false, false => None
  | true, false => Some c1
  | false, true => Some c2
  | true, true =>
      match cmp_dec_bin (2 * c1 + 1) j (2 * m) e with
      | Gt => Some c1
      | Lt => Some c2
      | Eq => Some (if Z.even c1 then c1 else c2)
      end
  end.

(** Try [k], [k + 1], ... significant digits; seventeen always suffice
    for a double, and the search stops there at the latest with the
    nearest decimal of seventeen digits. *)
Fixpoint shortest_from (fuel : nat) (m e E k : Z) : Z * Z :=
  match fuel with
  | O =>
      let j := E - 17 in
      (round_half_even (m * 2 ^ Z.max 0 e * 10 ^ Z.max 0 (- j))
                       (2 ^ Z.max 0 (- e) * 10 ^ Z.max 0 j), j)
  | S f =>
      match candidate m e E k with
      | Some c => (c, E - k)
      | None => shortest_from f m e E (k + 1)
      end
  end.

(** The digits (without trailing zeros) of the shortest decimal and the
    position of its decimal point relative to the first digit. *)
Definition shortest_digits (m e : Z) : str * Z :=
  let '(c, j) := shortest_from 17 m e (decimal_point m e) 1 in
  let ds := str_of_nonneg c in
  (rstrip_by (N.eqb 48) ds, j + Z.of_nat (length ds)).

Definition zeros (n : Z) : str := repeat 48%N (Z.to_nat n).

(** The text of [repr]: positional notation when the decimal point falls
    within [-4 < decpt <= 16], with [.0] added to an integer; otherwise
    scientific notation with an exponent of at least two digits. *)
Definition format_short (ds : str) (decpt : Z) : str :=
  let n := Z.of_nat (length ds) in
  if (decpt <=? - 4) || (16 <? decpt) then
    let ex := decpt - 1 in
    let frac := match tl ds with [] => [] | r => 46%N :: r end in
    let exdigits := str_of_nonneg (Z.abs ex) in
    firstn 1 ds ++ frac ++ [101%N; if ex <? 0 then 45%N else 43%N]
      ++ (if Z.abs ex <? 10 then 48%N :: exdigits else exdigits)
  else if decpt <=? 0 then
    [48%N; 46%N] ++ zeros (- decpt) ++ ds
  else if decpt <? n then
    firstn (Z.to_nat decpt) ds ++ 46%N :: skipn (Z.to_nat decpt) ds
  else
    ds ++ zeros (decpt - n) ++ [46%N; 48%N].

(** [str(x)] *)
Definition float_str (x : float) : str :=
  (if fneg x then [45%N] else []) ++
  (if fmant x =? 0 then [48%N; 46%N; 48%N]
   else let '(ds, decpt) := shortest_digits (fmant x) (fexp x) in
        format_short ds decpt).

Local Close Scope Z_scope.

(** ** UTF-8: [s.encode()] *)

Definition byte_of (n : N) : byte :=
  match Byte.of_N n with
  | Some b => b
  | None => x00
  end.

Definition encode_char (c : char) : option bytes :=
  if (c <? 128)%N then Some [byte_of c]
  else if (c <? 2048)%N then
    Some [byte_of (192 + c / 64); byte_of (128 + c mod 64)]
  else if (c <? 65536)%N then
    if (55296 <=? c)%N && (c <=? 57343)%N then None
    else Some [byte_of (224 + c / 4096); byte_of (128 + (c / 64) mod 64);
               byte_of (128 + c mod 64)]
  else if (c <? 1114112)%N then
    Some [byte_of (240 + c / 262144); byte_of (128 + (c / 4096) mod 64);
          byte_of (128 + (c / 64) mod 64); byte_of (128 + c mod 64)]
  else None.

Fixpoint encode (s : str) : result bytes :=
  match s with
  | [] => Ok []
  | c :: s' =>
      match encode_char c with
      | None => Raise UnicodeEncodeError
      | Some bs => bind (encode s') (fun r => Ok (bs ++ r))
      end
  end.

(** ** [datetime]: [t.strftime("%a, %d %b %Y %H:%M:%S GMT")] in the C locale *)

Record datetime := mkdatetime {
  year : Z; month : Z; day : Z;
  hour : Z; minute : Z; second : Z;
  weekday : Z  (* Monday is 0 *)
}.

Definition day_names : list str :=
  List.map lit ["Mon"; "Tue"; "Wed"; "Thu"; "Fri"; "Sat"; "Sun"]%string.

Definition month_names : list str :=
  List.map lit ["Jan"; "Feb"; "Mar"; "Apr"; "May"; "Jun";
                "Jul"; "Aug"; "Sep"; "Oct"; "Nov"; "Dec"]%string.

Definition pad2 (n : Z) : str :=
  if (n <? 10)%Z then 48%N :: str_of_int n else str_of_int n.

Definition strftime_http (t : datetime) : str :=
  item day_names (Z.to_nat (weekday t)) ++ lit ", " ++ pad2 (day t) ++ lit " "
  ++ item month_names (Z.to_nat (month t - 1)) ++ lit " " ++ str_of_int (year t)
  ++ lit " " ++ pad2 (hour t) ++ lit ":" ++ pad2 (minute t) ++ lit ":"
  ++ pad2 (second t) ++ lit " GMT".

End Py.

(* ================================================================== *)
(** * The server *)
(* ================================================================== *)

Module Server.
Import Py.

(** ** The world outside: file system and clock

    [isfile] is [os.path.isfile], [read_file] is [get_file_data] ([open]
    and [read], which can fail), [now] is [datetime.datetime.now()]. *)
Record World := mkWorld {
  isfile : str -> bool;
  read_file : str -> result bytes;
  now : datetime
}.

(** ** Sending: a computation returns a value or raises, after a number
    of [sendall] calls on the client socket *)

Definition io (A : Type) : Type := (list bytes * result A)%type.

Definition ret {A} (a : A) : io A := ([], Ok a).
Definition lift {A} (r : result A) : io A := ([], r).
Definition sendall (data : bytes) : io unit := ([data], Ok tt).

Definition io_bind {A B} (c : io A) (k : A -> io B) : io B :=
  match c with
  | (out, Ok a) => let '(out', r) := k a in (out ++ out', r)
  | (out, Raise e) => (out, Raise e)
  end.

Notation "x <- c ;; k" := (io_bind c (fun x => k))
  (at level 100, c at next level, right associativity).
Notation "c ;; k" := (io_bind c (fun _ => k))
  (at level 100, right associativity).

Definition sent {A} (c : io A) : list bytes := fst c.
Definition returned {A} (c : io A) : result A := snd c.

(** ** Constants *)

Definition crlf : str := [13; 10]%N.

Definition CLOSE_SERVER_STATUS_CODE : Z := 1.
Definition DEFAULT_URL : str := lit "webroot/index.html".

Definition REDIRECTION_DICTIONARY : gmap str str :=
  list_to_map
    [ (lit "webroot/home.html", lit "webroot/index.html");
      (lit "home", lit "webroot/index.html");
      (lit "home.html", lit "webroot/index.html");
      (lit "webroot/home", lit "webroot/index.html") ].

Definition STATUS_CODE : gmap Z str :=
  list_to_map
    [ (200%Z, lit "HTTP/1.1 200 OK" ++ crlf);
      (404%Z, lit "HTTP/1.1 404 Not Found" ++ crlf);
      (302%Z, lit "HTTP/1.1 302 Moved Temporarily" ++ crlf);
      (500%Z, lit "HTTP/1.1 500 Internal Server Error" ++ crlf) ].

(** [d[k]] *)
Definition dict_item {K V} `{Countable K} (d : gmap K V) (k : K) : result V :=
  match d !! k with
  | Some v => Ok v
  | None => Raise KeyError
  end.

(** [k in d] *)
Definition dict_mem {K V} `{Countable K} (d : gmap K V) (k : K) : bool :=
  match d !! k with
  | Some _ => true
  | None => false
  end.

(** ** Request parser *)

Definition validate_http_request (request : str) : bool * str :=
  let first_line := item (split crlf request) 0 in
  if negb (startswith (lit "GET") first_line) then (false, [])
  else
    let split_request := split_ws first_line in
    if negb (length split_request =? 3)%nat then (false, [])
    else if negb (contains (lit "HTTP") (item split_request 2)) then (false, [])
    else
      let url := item split_request 1 in
      (true, url).

(** ** Response builders *)

Definition get_http_header (w : World) (content_length : Z) (url : str) : str :=
  let date := strftime_http (now w) in
  let http_header :=
    lit "Date: " ++ date ++ crlf
    ++ lit "Content-Length: " ++ str_of_int content_length ++ crlf in
  let accept_bytes := lit "Accept-Ranges: bytes" ++ crlf ++ crlf in
  let file_type :=
    if str_eqb url [] then lit "html" else item_last (split (lit ".") url) in
  if str_eqb file_type (lit "html") || str_eqb file_type (lit "txt") then
    http_header ++ lit "Content-Type: text/html" ++ crlf ++ crlf
  else if str_eqb file_type (lit "css") then
    http_header ++ lit "Content-Type: text/css" ++ crlf ++ crlf
  else if str_eqb file_type (lit "js") then
    http_header ++ lit "Content-Type: text/javascript" ++ crlf ++ crlf
  else if str_eqb file_type (lit "jpg") then
    http_header ++ lit "Content-Type: image/jpeg" ++ crlf ++ accept_bytes
  else if str_eqb file_type (lit "png") then
    http_header ++ lit "Content-Type: image/png" ++ crlf ++ accept_bytes
  else if str_eqb file_type (lit "ico") then
    http_header ++ lit "Content-Type: image/icon" ++ crlf ++ accept_bytes
  else if str_eqb file_type (lit "gif") then
    http_header ++ lit "Content-Type: image/gif" ++ crlf ++ accept_bytes
  else http_header.

Definition len {A} (l : list A) : Z := Z.of_nat (length l).

Definition not_found (w : World) : io Z :=
  let massage := lit "404 Not Found" ++ crlf in
  status <- lift (dict_item STATUS_CODE 404%Z) ;;
  let http_response := status ++ get_http_header w (len massage) [] ++ massage in
  payload <- lift (encode http_response) ;;
  sendall payload ;;
  ret 404%Z.

Definition ok (w : World) (data : bytes) (url : str) : io Z :=
  data <- (if negb (str_eqb url []) && (length data =? 0)%nat
           then lift (read_file w url) else ret data) ;;
  let http_header := get_http_header w (len data) url in
  status <- lift (dict_item STATUS_CODE 200%Z) ;;
  let http_response := status ++ http_header in
  head <- lift (encode http_response) ;;
  sendall (head ++ data) ;;
  ret 200%Z.

Definition moved_temporarily (w : World) (url : str) : io Z :=
  target <- lift (dict_item REDIRECTION_DICTIONARY url) ;;
  if negb (isfile w target) then not_found w
  else
    data <- lift (read_file w target) ;;
    let location := lit "Location: http://" ++ target ++ crlf in
    let http_header := get_http_header w (len data) target in
    status <- lift (dict_item STATUS_CODE 302%Z) ;;
    let http_response := status ++ location ++ http_header in
    head <- lift (encode http_response) ;;
    sendall (head ++ data) ;;
    ret 302%Z.

Definition internal_server_error (w : World) (message : str) : io Z :=
  status <- lift (dict_item STATUS_CODE 500%Z) ;;
  let http_response := status ++ get_http_header w (len message) [] ++ message in
  payload <- lift (encode http_response) ;;
  sendall payload ;;
  ret 500%Z.

Definition calculate_area (w : World) (request : str) : io Z :=
  let parameters := split (lit "&") (item_last (split (lit "?") request)) in
  if negb (length parameters =? 2)%nat then
    internal_server_error w
      (lit "Many or less parameters, expected 2, got " ++ str_of_int (len parameters))
  else
    let height := item_last (split (lit "=") (item parameters 0)) in
    let width := item_last (split (lit "=") (item parameters 1)) in
    if negb (isnumeric height) || negb (isnumeric width) then
      internal_server_error w (lit "Not numeric value for height or width")
    else
      h <- lift (int_of_str height) ;;
      wd <- lift (int_of_str width) ;;
      q <- lift (int_truediv (h * wd) 2) ;;
      let area := float_str q in
      let area :=
        if endswith (lit ".0") area then firstn (length area - 2) area else area in
      data <- lift (encode area) ;;
      ok w data [].

(** ** Router *)

(** The URL the request stands for (the first statement of
    [handle_client_request]). *)
Definition requested_url (resource : str) : str :=
  if str_eqb resource [] || str_eqb resource (lit "/")
  then DEFAULT_URL
  else strip (lit "/") resource.

(** The URL under the web root (the [if not url.startswith('webroot/')]
    statement). *)
Definition webroot_url (url : str) : str :=
  if negb (startswith (lit "webroot/") url) then lit "webroot/" ++ url else url.

Definition handle_client_request (w : World) (resource : str) : io Z :=
  let url := requested_url resource in
  if endswith (lit "exit") url then ret CLOSE_SERVER_STATUS_CODE
  else
    let url := webroot_url url in
    if dict_mem REDIRECTION_DICTIONARY url then moved_temporarily w url
    else
      let server_function := item_last (split (lit "/") url) in
      if contains (lit "calculate-area") server_function then
        calculate_area w server_function
      else if negb (isfile w url) then not_found w
      else ok w [] url.

(** ** Connection loop

    What [client_socket.recv(1024).decode()] yields, one event per call:
    the text of a request together with the world in which it is served,
    bytes that are not UTF-8, on which [decode] raises, or a timeout.
    When the events are used up the peer has closed the connection and
    [recv] yields the empty string. *)
Inductive recv_event :=
| Recv (w : World) (client_request : str)
| RecvUndecodable
| RecvTimeout.

(** [handle_client] returns [CLOSE_SERVER_STATUS_CODE] or [None]. *)
Fixpoint handle_client (conn : list recv_event) : io (option Z) :=
  match conn with
  | [] => ret None
  | RecvTimeout :: _ => lift (Raise SocketTimeout)
  | RecvUndecodable :: _ => lift (Raise UnicodeDecodeError)
  | Recv w client_request :: rest =>
      let '(valid_http, resource) := validate_http_request client_request in
      if valid_http then
        code <- handle_client_request w resource ;;
        if (code =? CLOSE_SERVER_STATUS_CODE)%Z then ret (Some CLOSE_SERVER_STATUS_CODE)
        else handle_client rest
      else ret None
  end.

(** ** Accept loop

    [main] serves one connection after the other; each is given by the
    events of its [recv] calls.  The loop ends when [handle_client]
    returns [CLOSE_SERVER_STATUS_CODE] or raises anything but a timeout;
    when the connections are used up [accept] blocks, and the server is
    still listening.  The result lists what was sent on each connection
    served. *)
Inductive server_end :=
| Stopped
| Listening.

Fixpoint main (connections : list (list recv_event)) : list (list bytes) * server_end :=
  match connections with
  | [] => ([], Listening)
  | conn :: rest =>
      match handle_client conn with
      | (out, Ok (Some code)) =>
          if (code =? CLOSE_SERVER_STATUS_CODE)%Z then ([out], Stopped)
          else let '(outs, e) := main rest in (out :: outs, e)
      | (out, Ok None) => let '(outs, e) := main rest in (out :: outs, e)
      | (out, Raise SocketTimeout) => let '(outs, e) := main rest in (out :: outs, e)
      | (out, Raise _) => ([out], Stopped)
      end
  end.

End Server.

(* ================================================================== *)
(** * Vocabulary of the specification *)
(* ================================================================== *)

Module Spec.
Import Py Server.

(** A string without white space. *)
Definition no_space (s : str) : bool := forallb (fun c => negb (isspace c)) s.

(** A string without the character [c]. *)
Definition lacks (c : char) (s : str) : bool := forallb (fun x => negb (c =? x)%N) s.

(** Validity of a request line in the words of the specification: exactly
    three white-space separated tokens, the first exactly [GET], the
    third containing [HTTP]. *)
Definition valid_request_line (line : str) : bool :=
  let tokens := split_ws line in
  (length tokens =? 3)%nat
  && str_eqb (item tokens 0) (lit "GET")
  && contains (lit "HTTP") (item tokens 2).

(** Text that UTF-8 encodes byte for byte. *)
Definition is_ascii (s : str) : bool := forallb (fun c => (c <? 128)%N) s.
Definition ascii_bytes (s : str) : bytes := List.map byte_of s.

(** The ways a header block can end: the [Content-Type] line with the
    blank line, preceded by [Accept-Ranges] for images, or nothing for
    an unknown file type. *)
Definition accept_ranges : str := lit "Accept-Ranges: bytes" ++ crlf ++ crlf.

Definition header_tails : list str :=
  [ lit "Content-Type: text/html" ++ crlf ++ crlf;
    lit "Content-Type: text/css" ++ crlf ++ crlf;
    lit "Content-Type: text/javascript" ++ crlf ++ crlf;
    lit "Content-Type: image/jpeg" ++ crlf ++ accept_ranges;
    lit "Content-Type: image/png" ++ crlf ++ accept_ranges;
    lit "Content-Type: image/icon" ++ crlf ++ accept_ranges;
    lit "Content-Type: image/gif" ++ crlf ++ accept_ranges;
    [] ].

(** The lines every header block starts with. *)
Definition header_lines (w : World) (content_length : Z) : str :=
  lit "Date: " ++ strftime_http (now w) ++ crlf
  ++ lit "Content-Length: " ++ str_of_int content_length ++ crlf.

(** A payload is framed when it is the status line of [code], possibly
    a [Location] line, a header block announcing in [Content-Length] the
    number of bytes of the body, and that body. *)
Definition status_line (code : Z) : str :=
  match STATUS_CODE !! code with
  | Some line => line
  | None => []
  end.

Definition framed (w : World) (code : Z) (payload : bytes) : Prop :=
  exists location tail body,
    In code [200; 404; 302; 500]%Z
    /\ (location = []
        \/ exists target, location = lit "Location: http://" ++ target ++ crlf)
    /\ In tail header_tails
    /\ payload
       = ascii_bytes (status_line code ++ location
                      ++ header_lines w (len body) ++ tail)
         ++ body.

(** A computation responds when it sends one framed payload and returns
    its status code, or raises without sending anything. *)
Definition responds (w : World) (c : io Z) : Prop :=
  (exists payload code, c = ([payload], Ok code) /\ framed w code payload)
  \/ (exists e, c = ([], Raise e)).

(** The normalization of a target in the words of the specification:
    the default for the empty target and for [/], otherwise the target
    without exactly one leading [/]. *)
Definition strip_one_leading_slash (target : str) : str :=
  match target with
  | 47%N :: t => t
  | _ => target
  end.

Definition claimed_url (target : str) : str :=
  if str_eqb target [] || str_eqb target (lit "/")
  then DEFAULT_URL
  else strip_one_leading_slash target.

(** Decimal digit strings, in the words of the specification: one or
    more of the characters [0] to [9], and the number they write. *)
Definition is_digit (c : char) : bool := (48 <=? c)%N && (c <=? 57)%N.

Definition all_digits (s : str) : bool :=
  match s with
  | [] => false
  | _ => forallb is_digit s
  end.

Definition digits_value (s : str) : Z :=
  fold_left (fun acc c => 10 * acc + (Z.of_N c - 48))%Z s 0%Z.

(** The exact decimal rendering of [p / 2] for [p >= 0]: the quotient,
    followed by [.5] when [p] is odd. *)
Definition exact_half (p : Z) : str :=
  if Z.even p then str_of_int (p / 2) else str_of_int (p / 2) ++ lit ".5".

(** The request of the computed endpoint with the two values. *)
Definition area_request (name height width : str) : str :=
  name ++ lit "?height=" ++ height ++ lit "&width=" ++ width.

(** A request of the computed endpoint with parameters of any names. *)
Definition query_request (name key1 value1 key2 value2 : str) : str :=
  name ++ 63%N :: key1 ++ 61%N :: value1 ++ 38%N :: key2 ++ 61%N :: value2.

(** A world for examples: two files under the web root, Monday
    5 February 2024, 13:04:59. *)
Definition demo_world : World :=
  mkWorld
    (fun path => str_eqb path (lit "webroot/index.html")
                 || str_eqb path (lit "webroot/css/site.css"))
    (fun path =>
       if str_eqb path (lit "webroot/index.html") then Ok [x68; x69]
       else if str_eqb path (lit "webroot/css/site.css") then Ok [x7b; x7d]
       else Raise OSError)
    (mkdatetime 2024 2 5 13 4 59 0).

(** The file types [get_http_header] knows. *)
Definition known_file_types : list str :=
  List.map lit ["html"; "txt"; "css"; "js"; "jpg"; "png"; "ico"; "gif"]%string.

(** The 404 response, which does not depend on the request. *)
Definition response_404 (w : World) : bytes :=
  ascii_bytes (lit "HTTP/1.1 404 Not Found" ++ crlf ++ header_lines w 15
               ++ lit "Content-Type: text/html" ++ crlf ++ crlf
               ++ lit "404 Not Found" ++ crlf).

(** A connection on which the first thing read is not a valid request:
    the peer closed, timed out, or sent text that is something else.
    Bytes that cannot be decoded are not among these. *)
Definition starts_without_request (conn : list recv_event) : bool :=
  match conn with
  | [] => true
  | RecvTimeout :: _ => true
  | RecvUndecodable :: _ => false
  | Recv _ client_request :: _ => negb (fst (validate_http_request client_request))
  end.

(** What the router sends in answer to one event of a connection:
    nothing unless the event is a valid request. *)
Definition response_to (ev : recv_event) : list bytes :=
  match ev with
  | Recv w client_request =>
      if fst (validate_http_request client_request)
      then sent (handle_client_request w (snd (validate_http_request client_request)))
      else []
  | _ => []
  end.

(** An event after which the connection loop reads on: a valid request
    that the router answered with a status other than
    [CLOSE_SERVER_STATUS_CODE]. *)
Definition answered (ev : recv_event) : bool :=
  match ev with
  | Recv w client_request =>
      fst (validate_http_request client_request)
      && match returned (handle_client_request w
                           (snd (validate_http_request client_request))) with
         | Ok code => negb (code =? CLOSE_SERVER_STATUS_CODE)%Z
         | Raise _ => false
         end
  | _ => false
  end.

(** A connection whose first request asks for a URL ending in [exit]. *)
Definition starts_with_exit (conn : list recv_event) : bool :=
  match conn with
  | Recv _ client_request :: _ =>
      fst (validate_http_request client_request)
      && endswith (lit "exit") (requested_url (snd (validate_http_request client_request)))
  | _ => false
  end.

End Spec.

(* ================================================================== *)
(** * Facts about the built-ins *)
(* ================================================================== *)

Module PyFacts.
Import Py Spec.

(** Replace every ASCII literal by its code points. *)
Ltac eval_lits :=
  repeat match goal with
         | |- context [lit ?x] =>
             let v := eval vm_compute in (lit x) in change (lit x) with v
         end.

Lemma startswith_app p s : startswith p (p ++ s) = true.
Proof.
  induction p as [|a p IH]; simpl; [reflexivity|].
  now rewrite N.eqb_refl.
Qed.

Lemma startswith_spec p s : startswith p s = true <-> exists t, s = p ++ t.
Proof.
  split.
  - revert s. induction p as [|a p IH]; intros s H.
    + now exists s.
    + destruct s as [|b s]; simpl in H; [discriminate|].
      apply andb_true_iff in H as [Hab Hp]. apply N.eqb_eq in Hab as ->.
      destruct (IH _ Hp) as [t ->]. now exists t.
  - intros [t ->]. apply startswith_app.
Qed.

Lemma endswith_app p s : endswith p (s ++ p) = true.
Proof. unfold endswith. rewrite rev_app_distr. apply startswith_app. Qed.

Lemma endswith_spec p s : endswith p s = true <-> exists t, s = t ++ p.
Proof.
  unfold endswith. rewrite startswith_spec. split.
  - intros [t H]. exists (rev t).
    rewrite <- (rev_involutive s), H, rev_app_distr. now rewrite rev_involutive.
  - intros [t ->]. exists (rev t). apply rev_app_distr.
Qed.

Lemma str_eqb_eq a b : str_eqb a b = true <-> a = b.
Proof.
  revert b. induction a as [|x a IH]; intros [|y b]; simpl; try easy.
  rewrite andb_true_iff, N.eqb_eq, IH. split.
  - now intros [-> ->].
  - intros [= -> ->]. easy.
Qed.

Lemma str_eqb_refl a : str_eqb a a = true.
Proof. now apply str_eqb_eq. Qed.

Lemma str_eqb_neq a b : str_eqb a b = false <-> a <> b.
Proof.
  rewrite <- str_eqb_eq. destruct (str_eqb a b); split; congruence.
Qed.

(** *** [split] *)

Lemma split_aux_nonempty sep skip cur s : split_aux sep skip cur s <> [].
Proof.
  revert skip cur. induction s as [|c s IH]; intros skip cur; simpl.
  - discriminate.
  - destruct skip; [|apply IH].
    destruct (startswith sep (c :: s)); [discriminate|apply IH].
Qed.

Lemma last_cons_nonempty (x : str) (l : list str) :
  l <> [] -> List.last (x :: l) [] = List.last l [].
Proof. destruct l; [congruence|reflexivity]. Qed.

(** The last piece of a split is a suffix of the string. *)
Lemma split_aux_last_suffix sep s : forall skip cur,
  exists pre, rev cur ++ skipn skip s = pre ++ item_last (split_aux sep skip cur s).
Proof.
  unfold item_last.
  induction s as [|c s IH]; intros skip cur.
  - exists []. simpl. now rewrite skipn_nil, app_nil_r.
  - simpl. destruct skip as [|k].
    + destruct (startswith sep (c :: s)).
      * rewrite last_cons_nonempty by apply split_aux_nonempty.
        destruct (IH (length sep - 1)%nat []) as [pre Hpre]. simpl in Hpre.
        exists (rev cur ++ c :: firstn (length sep - 1) s ++ pre).
        rewrite <- !app_assoc. simpl. rewrite <- app_assoc, <- Hpre.
        now rewrite firstn_skipn.
      * destruct (IH 0%nat (c :: cur)) as [pre Hpre]. exists pre.
        rewrite <- Hpre. simpl. now rewrite <- app_assoc.
    + apply IH.
Qed.

Lemma split_last_suffix sep s : exists pre, s = pre ++ item_last (split sep s).
Proof. apply (split_aux_last_suffix sep s 0%nat []). Qed.

Lemma split_last_endswith sep s : endswith (item_last (split sep s)) s = true.
Proof. apply endswith_spec, split_last_suffix. Qed.

(** Splitting at a single character. *)
Lemma split1_aux_step c cur x s :
  split_aux [c] 0 cur (x :: s)
  = if (c =? x)%N then rev cur :: split_aux [c] 0 [] s
    else split_aux [c] 0 (x :: cur) s.
Proof. simpl. now destruct (c =? x)%N. Qed.

Lemma split1_aux_lacks c a : forall cur tail,
  lacks c a = true ->
  split_aux [c] 0 cur (a ++ tail) = split_aux [c] 0 (rev a ++ cur) tail.
Proof.
  induction a as [|x a IH]; intros cur tail H; [reflexivity|].
  simpl in H. apply andb_true_iff in H as [Hx Ha].
  apply negb_true_iff in Hx.
  rewrite <- app_comm_cons, split1_aux_step, Hx, IH by assumption.
  simpl. now rewrite <- app_assoc.
Qed.

Lemma split1_lacks c a : lacks c a = true -> split [c] a = [a].
Proof.
  intros H. unfold split.
  rewrite <- (app_nil_r a) at 1. rewrite split1_aux_lacks by assumption.
  simpl. now rewrite app_nil_r, rev_involutive.
Qed.

Lemma split1_cons c a b :
  lacks c a = true -> split [c] (a ++ c :: b) = a :: split [c] b.
Proof.
  intros H. unfold split. rewrite split1_aux_lacks by assumption.
  rewrite split1_aux_step, N.eqb_refl.
  now rewrite app_nil_r, rev_involutive.
Qed.

Lemma split1_aux_last c a : forall cur b,
  item_last (split_aux [c] 0 cur (a ++ c :: b)) = item_last (split [c] b).
Proof.
  unfold item_last.
  induction a as [|x a IH]; intros cur b.
  - rewrite app_nil_l, split1_aux_step, N.eqb_refl.
    apply last_cons_nonempty, split_aux_nonempty.
  - rewrite <- app_comm_cons, split1_aux_step.
    destruct (c =? x)%N.
    + rewrite last_cons_nonempty by apply split_aux_nonempty. apply IH.
    + apply IH.
Qed.

Lemma split1_last c a b :
  lacks c b = true -> item_last (split [c] (a ++ c :: b)) = b.
Proof.
  intros H. unfold split at 1. rewrite split1_aux_last.
  now rewrite split1_lacks.
Qed.

(** The first line of a request. *)
Lemma split_crlf_aux_lacks a : forall cur tail,
  lacks 13%N a = true ->
  split_aux [13; 10]%N 0 cur (a ++ tail) = split_aux [13; 10]%N 0 (rev a ++ cur) tail.
Proof.
  induction a as [|x a IH]; intros cur tail H; [reflexivity|].
  simpl in H. apply andb_true_iff in H as [Hx Ha].
  apply negb_true_iff in Hx. simpl. rewrite Hx. simpl.
  rewrite IH by assumption. now rewrite <- app_assoc.
Qed.

Lemma first_line_alone a :
  lacks 13%N a = true -> item (split [13; 10]%N a) 0 = a.
Proof.
  intros H. unfold split.
  rewrite <- (app_nil_r a) at 1. rewrite split_crlf_aux_lacks by assumption.
  simpl. now rewrite app_nil_r, rev_involutive.
Qed.

Lemma first_line_crlf a rest :
  lacks 13%N a = true -> item (split [13; 10]%N (a ++ [13; 10]%N ++ rest)) 0 = a.
Proof.
  intros H. unfold split. rewrite split_crlf_aux_lacks by assumption.
  simpl. now rewrite app_nil_r, rev_involutive.
Qed.

(** *** [split()] *)

Lemma split_ws_aux_word p : forall cur rest,
  no_space p = true ->
  split_ws_aux cur (p ++ rest) = split_ws_aux (rev p ++ cur) rest.
Proof.
  induction p as [|x p IH]; intros cur rest H; [reflexivity|].
  simpl in H. apply andb_true_iff in H as [Hx Hp].
  apply negb_true_iff in Hx. simpl. rewrite Hx.
  rewrite IH by assumption. now rewrite <- app_assoc.
Qed.

Lemma no_space_lacks_cr p : no_space p = true -> lacks 13%N p = true.
Proof.
  unfold no_space, lacks. rewrite !forallb_forall. intros H x Hx.
  specialize (H x Hx). destruct (13 =? x)%N eqn:E; [|reflexivity].
  apply N.eqb_eq in E. subst x. discriminate H.
Qed.

Lemma lacks_app c a b : lacks c (a ++ b) = lacks c a && lacks c b.
Proof. apply forallb_app. Qed.

End PyFacts.

(* ================================================================== *)
(** * The request parser *)
(* ================================================================== *)

Import Py Server Spec PyFacts.

(** What [validate_http_request] accepts, read off its three guards. *)
Lemma validate_http_request_accepts request :
  let first_line := item (split crlf request) 0 in
  fst (validate_http_request request) = true
  <-> startswith (lit "GET") first_line = true
      /\ length (split_ws first_line) = 3%nat
      /\ contains (lit "HTTP") (item (split_ws first_line) 2) = true.
Proof.
  cbv zeta. unfold validate_http_request.
  destruct (startswith (lit "GET") _); simpl; [|intuition discriminate].
  destruct (Nat.eqb_spec (length (split_ws (item (split crlf request) 0))) 3) as [E|E];
    simpl; [|intuition congruence].
  destruct (contains (lit "HTTP") _); simpl; intuition congruence.
Qed.

(** C1 (the code departs from the claim).  The request line
    [GETX / HTTP/1.1] has three tokens and its first token is [GETX], not
    [GET], so it is not a valid request line in the words of the
    specification; [validate_http_request] nevertheless accepts it and
    returns the target [/], because it tests the line with
    [startswith('GET')] instead of comparing the first token. *)
Theorem validate_accepts_longer_method :
  let request := lit "GETX / HTTP/1.1" ++ crlf ++ crlf in
  let first_line := item (split crlf request) 0 in
  validate_http_request request = (true, lit "/")
  /\ split_ws first_line = [lit "GETX"; lit "/"; lit "HTTP/1.1"]
  /\ valid_request_line first_line = false.
Proof. vm_compute. repeat split. Qed.

(** The same test rejects a line whose first token is [GET] when white
    space precedes it. *)
Lemma validate_rejects_leading_space :
  let first_line := lit " GET / HTTP/1.1" in
  validate_http_request first_line = (false, [])
  /\ valid_request_line first_line = true.
Proof. vm_compute. split; reflexivity. Qed.

(** A method that does not begin with the letters [GET] is rejected. *)
Lemma validate_rejects_other_prefix request :
  startswith (lit "GET") (item (split crlf request) 0) = false ->
  validate_http_request request = (false, []).
Proof. intros H. unfold validate_http_request. now rewrite H. Qed.

Lemma request_line_tokens p :
  p <> [] -> no_space p = true ->
  split_ws (lit "GET " ++ p ++ lit " HTTP/1.1")
  = [lit "GET"; p; lit "HTTP/1.1"].
Proof.
  intros Hne Hp. eval_lits. unfold split_ws.
  change ([71; 69; 84; 32]%N ++ p ++ [32; 72; 84; 84; 80; 47; 49; 46; 49]%N)
    with ([71; 69; 84]%N ++ 32%N :: p ++ [32; 72; 84; 84; 80; 47; 49; 46; 49]%N).
  rewrite split_ws_aux_word by reflexivity.
  cbn [split_ws_aux rev app]. change (isspace 32%N) with true. cbn iota.
  f_equal. rewrite split_ws_aux_word by assumption. rewrite app_nil_r.
  cbn [split_ws_aux]. change (isspace 32%N) with true. cbn iota.
  destruct (rev p) as [|x r] eqn:E.
  - apply (f_equal (@rev _)) in E. rewrite rev_involutive in E. now subst p.
  - rewrite <- E, rev_involutive. f_equal.
Qed.

Lemma request_line_lacks_cr p :
  no_space p = true -> lacks 13%N (lit "GET " ++ p ++ lit " HTTP/1.1") = true.
Proof.
  intros Hp. rewrite !lacks_app, (no_space_lacks_cr p Hp). reflexivity.
Qed.

(** C7 (as amended).  For every non-empty target [p] without white space
    the request line [GET p HTTP/1.1], alone or followed by a line end
    and anything else, is accepted; its first token is [GET] and the
    returned target is [p] itself, query string included, unchanged. *)
Theorem validate_returns_target_verbatim (p rest : str) :
  p <> [] -> no_space p = true ->
  let line := lit "GET " ++ p ++ lit " HTTP/1.1" in
  validate_http_request line = (true, p)
  /\ validate_http_request (line ++ crlf ++ rest) = (true, p)
  /\ item (split_ws line) 0 = lit "GET".
Proof.
  intros Hne Hp line.
  assert (Hcr : lacks 13%N line = true) by now apply request_line_lacks_cr.
  assert (Htok : split_ws line = [lit "GET"; p; lit "HTTP/1.1"])
    by now apply request_line_tokens.
  assert (Hone : forall request, item (split crlf request) 0 = line ->
                 validate_http_request request = (true, p)).
  { intros request Hl. unfold validate_http_request. rewrite Hl, Htok.
    change (startswith (lit "GET") line)
      with (startswith (lit "GET") (lit "GET" ++ 32%N :: p ++ lit " HTTP/1.1")).
    rewrite startswith_app. reflexivity. }
  split; [|split].
  - apply Hone. now apply first_line_alone.
  - apply Hone. now apply first_line_crlf.
  - now rewrite Htok.
Qed.

Lemma validate_returns_target_verbatim_witness :
  lit "/calculate-area?height=3&width=3" <> []
  /\ no_space (lit "/calculate-area?height=3&width=3") = true
  /\ validate_http_request (lit "GET /calculate-area?height=3&width=3 HTTP/1.1")
     = (true, lit "/calculate-area?height=3&width=3").
Proof.
  split; [discriminate|]. split; [reflexivity|].
  refine (proj1 (validate_returns_target_verbatim
                   (lit "/calculate-area?height=3&width=3") [] _ _)).
  - discriminate.
  - reflexivity.
Defined.

(** C7 (as stated) fails for the empty target, which contains no white
    space: the line then has two tokens and is rejected. *)
Lemma validate_rejects_empty_target :
  no_space [] = true
  /\ validate_http_request (lit "GET " ++ [] ++ lit " HTTP/1.1") = (false, []).
Proof. split; reflexivity. Qed.

(* ================================================================== *)
(** * The response builders *)
(* ================================================================== *)

(** ** Sequencing *)

Lemma bind_lift_ok {A B} (a : A) (k : A -> io B) : (x <- lift (Ok a) ;; k x) = k a.
Proof. unfold io_bind, lift. now destruct (k a). Qed.

Lemma bind_lift_raise {A B} e (k : A -> io B) :
  (x <- lift (Raise e) ;; k x) = ([], Raise e).
Proof. reflexivity. Qed.

Lemma bind_ret {A B} (a : A) (k : A -> io B) : (x <- ret a ;; k x) = k a.
Proof. apply bind_lift_ok. Qed.

Lemma send_then_return (data : bytes) (code : Z) :
  (sendall data ;; ret code) = ([data], Ok code).
Proof. reflexivity. Qed.

(** ** ASCII text *)

Lemma is_ascii_app a b : is_ascii (a ++ b) = is_ascii a && is_ascii b.
Proof. apply forallb_app. Qed.

Lemma ascii_bytes_app a b : ascii_bytes (a ++ b) = ascii_bytes a ++ ascii_bytes b.
Proof. apply map_app. Qed.

Lemma ascii_bytes_length a : length (ascii_bytes a) = length a.
Proof. apply length_map. Qed.

Lemma encode_ascii s : is_ascii s = true -> encode s = Ok (ascii_bytes s).
Proof.
  induction s as [|c s IH]; intros H; [reflexivity|].
  simpl in H. apply andb_true_iff in H as [Hc Hs].
  cbn [encode]. unfold encode_char. rewrite Hc, (IH Hs). reflexivity.
Qed.

Lemma is_ascii_digits fuel : forall n, is_ascii (digits_fuel fuel n) = true.
Proof.
  assert (Hd : forall d, (d < 10)%Z -> (digit_char d <? 128)%N = true).
  { intros d Hlt. unfold digit_char. apply N.ltb_lt. lia. }
  induction fuel as [|f IH]; intros n; [reflexivity|].
  cbn [digits_fuel]. destruct (Z.ltb_spec n 10).
  - cbn. now rewrite Hd.
  - rewrite is_ascii_app, IH. cbn. rewrite Hd; [reflexivity|].
    apply Z.mod_pos_bound. lia.
Qed.

Lemma is_ascii_str_of_int n : is_ascii (str_of_int n) = true.
Proof.
  unfold str_of_int, str_of_nonneg.
  destruct (n <? 0)%Z; [cbn [is_ascii forallb]|]; now rewrite is_ascii_digits.
Qed.

Lemma is_ascii_pad2 n : is_ascii (pad2 n) = true.
Proof.
  unfold pad2. destruct (n <? 10)%Z; [cbn [is_ascii forallb]|];
    now rewrite is_ascii_str_of_int.
Qed.

Lemma is_ascii_item names i :
  forallb is_ascii names = true -> is_ascii (item names i) = true.
Proof.
  intros H. unfold item. destruct (nth_in_or_default i names []) as [Hin| ->].
  - rewrite forallb_forall in H. now apply H.
  - reflexivity.
Qed.

Lemma is_ascii_strftime t : is_ascii (strftime_http t) = true.
Proof.
  unfold strftime_http.
  rewrite !is_ascii_app, !is_ascii_pad2, is_ascii_str_of_int,
    !is_ascii_item by reflexivity.
  reflexivity.
Qed.

(** ** The header block *)

Lemma get_http_header_tail w n url :
  exists tail, In tail header_tails
    /\ get_http_header w n url = header_lines w n ++ tail.
Proof.
  unfold get_http_header, header_lines.
  set (ft := if str_eqb url [] then _ else _).
  repeat match goal with
         | |- context [if ?b then _ else _] => destruct b
         end;
    (eexists; split;
     [| rewrite <- ?app_assoc; repeat f_equal; try reflexivity;
        try (symmetry; apply app_nil_r)];
     unfold header_tails, accept_ranges; rewrite <- ?app_assoc; simpl; tauto).
Qed.

Lemma is_ascii_header_lines w n : is_ascii (header_lines w n) = true.
Proof.
  unfold header_lines.
  now rewrite !is_ascii_app, is_ascii_strftime, is_ascii_str_of_int.
Qed.

Lemma is_ascii_header_tail tail : In tail header_tails -> is_ascii tail = true.
Proof.
  intros H. assert (Hall : forallb is_ascii header_tails = true) by reflexivity.
  rewrite forallb_forall in Hall. now apply Hall.
Qed.

Lemma is_ascii_get_http_header w n url : is_ascii (get_http_header w n url) = true.
Proof.
  destruct (get_http_header_tail w n url) as (tail & Hin & ->).
  now rewrite is_ascii_app, is_ascii_header_lines, is_ascii_header_tail.
Qed.

(** An empty [url] is read as the html file type. *)
Lemma get_http_header_no_url w n :
  get_http_header w n []
  = header_lines w n ++ lit "Content-Type: text/html" ++ crlf ++ crlf.
Proof. unfold get_http_header, header_lines. cbn. now rewrite <- !app_assoc. Qed.

(** ** The status lines *)

Lemma status_line_200 : dict_item STATUS_CODE 200%Z = Ok (status_line 200).
Proof. reflexivity. Qed.

Lemma status_line_404 : dict_item STATUS_CODE 404%Z = Ok (status_line 404).
Proof. reflexivity. Qed.

Lemma status_line_302 : dict_item STATUS_CODE 302%Z = Ok (status_line 302).
Proof. reflexivity. Qed.

Lemma status_line_500 : dict_item STATUS_CODE 500%Z = Ok (status_line 500).
Proof. reflexivity. Qed.

(** ** What each builder sends *)

Lemma not_found_response w :
  not_found w
  = ([ascii_bytes (status_line 404 ++ get_http_header w 15 [])
      ++ ascii_bytes (lit "404 Not Found" ++ crlf)], Ok 404%Z).
Proof.
  unfold not_found. rewrite status_line_404, bind_lift_ok.
  rewrite encode_ascii, bind_lift_ok.
  - rewrite send_then_return.
    now rewrite <- ?ascii_bytes_app, <- ?app_assoc.
  - rewrite !is_ascii_app, is_ascii_get_http_header. reflexivity.
Qed.

Lemma internal_server_error_response w message :
  is_ascii message = true ->
  internal_server_error w message
  = ([ascii_bytes (status_line 500 ++ get_http_header w (len message) [])
      ++ ascii_bytes message], Ok 500%Z).
Proof.
  intros Hm. unfold internal_server_error. rewrite status_line_500, bind_lift_ok.
  rewrite encode_ascii, bind_lift_ok.
  - rewrite send_then_return.
    now rewrite <- ?ascii_bytes_app, <- ?app_assoc.
  - rewrite !is_ascii_app, is_ascii_get_http_header, Hm. reflexivity.
Qed.

(** [ok] with the body given. *)
Lemma ok_response_data w data url :
  (url = [] \/ data <> []) ->
  ok w data url
  = ([ascii_bytes (status_line 200 ++ get_http_header w (len data) url)
      ++ data], Ok 200%Z).
Proof.
  intros H. unfold ok.
  assert (negb (str_eqb url []) && (length data =? 0)%nat = false) as ->.
  { destruct H as [-> | H]; [reflexivity|].
    destruct data; [congruence|]. apply andb_false_r. }
  rewrite bind_ret, status_line_200, bind_lift_ok.
  rewrite encode_ascii, bind_lift_ok.
  - rewrite send_then_return. now rewrite <- ?app_assoc.
  - rewrite !is_ascii_app, is_ascii_get_http_header. reflexivity.
Qed.

(** [ok] with the body read from the file [url]. *)
Lemma ok_response_file w url :
  url <> [] ->
  ok w [] url
  = match read_file w url with
    | Ok data =>
        ([ascii_bytes (status_line 200 ++ get_http_header w (len data) url)
          ++ data], Ok 200%Z)
    | Raise e => ([], Raise e)
    end.
Proof.
  intros H. unfold ok.
  assert (negb (str_eqb url []) && (length (@nil byte) =? 0)%nat = true) as ->.
  { apply str_eqb_neq in H. now rewrite H. }
  destruct (read_file w url) as [data|e]; [|reflexivity].
  rewrite bind_lift_ok, status_line_200, bind_lift_ok.
  rewrite encode_ascii, bind_lift_ok.
  - rewrite send_then_return. now rewrite <- ?app_assoc.
  - rewrite !is_ascii_app, is_ascii_get_http_header. reflexivity.
Qed.

(** ** The redirection table *)

Lemma redirection_entries k v :
  REDIRECTION_DICTIONARY !! k = Some v ->
  v = lit "webroot/index.html"
  /\ (k = lit "webroot/home.html" \/ k = lit "home"
      \/ k = lit "home.html" \/ k = lit "webroot/home").
Proof.
  intros H. apply elem_of_list_to_map_2 in H.
  repeat (apply elem_of_cons in H as [H|H]; [injection H as -> ->; tauto|]).
  now apply elem_of_nil in H.
Qed.

(** C8.  The value of every entry of [REDIRECTION_DICTIONARY] is not a
    key of it: no redirect leads to another redirect. *)
Theorem redirect_targets_are_not_keys (k v : str) :
  REDIRECTION_DICTIONARY !! k = Some v -> REDIRECTION_DICTIONARY !! v = None.
Proof.
  intros H. apply redirection_entries in H as [-> _]. reflexivity.
Qed.

Lemma redirect_targets_are_not_keys_witness :
  REDIRECTION_DICTIONARY !! lit "home" = Some (lit "webroot/index.html")
  /\ REDIRECTION_DICTIONARY !! lit "webroot/index.html" = None.
Proof.
  split; [reflexivity|].
  apply (redirect_targets_are_not_keys (lit "home")). reflexivity.
Defined.

Lemma moved_temporarily_missing w url target :
  REDIRECTION_DICTIONARY !! url = Some target -> isfile w target = false ->
  moved_temporarily w url = not_found w.
Proof.
  intros Hk Hf. unfold moved_temporarily, dict_item at 1.
  now rewrite Hk, bind_lift_ok, Hf.
Qed.

Lemma moved_temporarily_response w url target :
  REDIRECTION_DICTIONARY !! url = Some target -> isfile w target = true ->
  moved_temporarily w url
  = match read_file w target with
    | Ok data =>
        ([ascii_bytes (status_line 302
                       ++ (lit "Location: http://" ++ target ++ crlf)
                       ++ get_http_header w (len data) target) ++ data], Ok 302%Z)
    | Raise e => ([], Raise e)
    end.
Proof.
  intros Hk Hf. unfold moved_temporarily, dict_item at 1.
  rewrite Hk, bind_lift_ok, Hf. cbn [negb].
  destruct (read_file w target) as [data|e]; [|reflexivity].
  rewrite bind_lift_ok, status_line_302, bind_lift_ok.
  rewrite encode_ascii, bind_lift_ok.
  - rewrite send_then_return. now rewrite <- ?app_assoc.
  - apply redirection_entries in Hk as [-> _].
    rewrite !is_ascii_app, is_ascii_get_http_header. reflexivity.
Qed.

(** ** The router *)

(** C6.  Routing a key of [REDIRECTION_DICTIONARY] whose target is not a
    file sends the 404 response, with the body [404 Not Found] and its
    line end, and returns 404; no 302 response is sent. *)
Theorem redirect_to_missing_target_is_404 (w : World) (k target : str) :
  REDIRECTION_DICTIONARY !! k = Some target ->
  isfile w target = false ->
  handle_client_request w k
  = ([ascii_bytes (lit "HTTP/1.1 404 Not Found" ++ crlf ++ header_lines w 15
                   ++ lit "Content-Type: text/html" ++ crlf ++ crlf)
      ++ ascii_bytes (lit "404 Not Found" ++ crlf)], Ok 404%Z).
Proof.
  intros Hk Hf.
  destruct (redirection_entries _ _ Hk) as [-> Hkeys].
  assert (Hroute : handle_client_request w k
                   = moved_temporarily w (webroot_url (requested_url k))
                   /\ REDIRECTION_DICTIONARY !! webroot_url (requested_url k)
                      = Some (lit "webroot/index.html")).
  { destruct Hkeys as [-> | [-> | [-> | ->]]]; split; reflexivity. }
  destruct Hroute as [-> Hurl].
  rewrite (moved_temporarily_missing _ _ _ Hurl Hf), not_found_response.
  now rewrite get_http_header_no_url.
Qed.

Lemma redirect_to_missing_target_is_404_witness :
  let w := mkWorld (fun _ => false) (read_file demo_world) (now demo_world) in
  REDIRECTION_DICTIONARY !! lit "home" = Some (lit "webroot/index.html")
  /\ isfile w (lit "webroot/index.html") = false
  /\ returned (handle_client_request w (lit "home")) = Ok 404%Z.
Proof.
  intros w. split; [reflexivity|]. split; [reflexivity|].
  rewrite (redirect_to_missing_target_is_404 w (lit "home") (lit "webroot/index.html"));
    reflexivity.
Defined.

(** ** Every builder responds *)

Lemma framed_intro w code location n url body :
  In code [200; 404; 302; 500]%Z ->
  (location = [] \/ exists target, location = lit "Location: http://" ++ target ++ crlf) ->
  n = len body ->
  framed w code
    (ascii_bytes (status_line code ++ location ++ get_http_header w n url) ++ body).
Proof.
  intros Hs Hl ->.
  destruct (get_http_header_tail w (len body) url) as (tail & Hin & ->).
  now exists location, tail, body.
Qed.

Lemma framed_intro_plain w code n url body :
  In code [200; 404; 302; 500]%Z -> n = len body ->
  framed w code (ascii_bytes (status_line code ++ get_http_header w n url) ++ body).
Proof. intros Hc Hn. apply (framed_intro w code []); [assumption|now left|assumption]. Qed.

Lemma len_ascii_bytes s : len (ascii_bytes s) = len s.
Proof. unfold len. now rewrite ascii_bytes_length. Qed.

Lemma not_found_responds w : responds w (not_found w).
Proof.
  left. eexists _, 404%Z. split; [apply not_found_response|].
  apply framed_intro_plain; [simpl; tauto|reflexivity].
Qed.

Lemma internal_server_error_responds w message :
  is_ascii message = true -> responds w (internal_server_error w message).
Proof.
  intros Hm. left. eexists _, 500%Z.
  split; [now apply internal_server_error_response|].
  apply framed_intro_plain; [simpl; tauto|].
  now rewrite len_ascii_bytes.
Qed.

Lemma ok_responds w data url : responds w (ok w data url).
Proof.
  destruct url as [|c url].
  - left. eexists _, 200%Z. split; [apply ok_response_data; now left|].
    apply framed_intro_plain; [simpl; tauto|reflexivity].
  - destruct data as [|b data].
    + rewrite ok_response_file by discriminate.
      destruct (read_file w (c :: url)) as [data|e]; [left|right; now exists e].
      eexists _, 200%Z. split; [reflexivity|].
      apply framed_intro_plain; [simpl; tauto|reflexivity].
    + left. eexists _, 200%Z.
      split; [apply ok_response_data; now right|].
      apply framed_intro_plain; [simpl; tauto|reflexivity].
Qed.

Lemma moved_temporarily_responds w url : responds w (moved_temporarily w url).
Proof.
  destruct (REDIRECTION_DICTIONARY !! url) as [target|] eqn:Hk.
  - destruct (isfile w target) eqn:Hf.
    + rewrite (moved_temporarily_response _ _ _ Hk Hf).
      destruct (read_file w target) as [data|e]; [left|right; now exists e].
      eexists _, 302%Z. split; [reflexivity|].
      apply framed_intro; [simpl; tauto|right; now exists target|reflexivity].
    + rewrite (moved_temporarily_missing _ _ _ Hk Hf). apply not_found_responds.
  - right. exists KeyError. unfold moved_temporarily, dict_item at 1.
    now rewrite Hk.
Qed.

Lemma calculate_area_responds w request : responds w (calculate_area w request).
Proof.
  unfold calculate_area.
  destruct (negb (length _ =? 2)%nat).
  { apply internal_server_error_responds.
    now rewrite is_ascii_app, is_ascii_str_of_int. }
  destruct (negb (isnumeric _) || negb (isnumeric _)).
  { now apply internal_server_error_responds. }
  destruct (int_of_str _) as [h|e]; [|right; now exists e].
  rewrite bind_lift_ok.
  destruct (int_of_str _) as [wd|e]; [|right; now exists e].
  rewrite bind_lift_ok.
  destruct (int_truediv _ _) as [q|e]; [|right; now exists e].
  rewrite bind_lift_ok. cbv zeta.
  destruct (encode _) as [data|e]; [|right; now exists e].
  rewrite bind_lift_ok. apply ok_responds.
Qed.

Lemma handle_client_request_cases w resource :
  endswith (lit "exit") (requested_url resource) = true
  /\ handle_client_request w resource = ([], Ok CLOSE_SERVER_STATUS_CODE)
  \/ endswith (lit "exit") (requested_url resource) = false
     /\ responds w (handle_client_request w resource).
Proof.
  unfold handle_client_request.
  destruct (endswith (lit "exit") (requested_url resource)); [now left|right].
  split; [reflexivity|].
  destruct (dict_mem _ _); [apply moved_temporarily_responds|].
  destruct (contains _ _); [apply calculate_area_responds|].
  destruct (negb _); [apply not_found_responds|apply ok_responds].
Qed.


Lemma responds_not_close w c :
  responds w c -> returned c <> Ok CLOSE_SERVER_STATUS_CODE.
Proof.
  intros [(payload & code & -> & (_ & _ & _ & Hc & _)) | (e & ->)]; simpl.
  - intros [= ->]. simpl in Hc. intuition discriminate.
  - discriminate.
Qed.


(** C10.  A 200 response built by [calculate_area] carries
    [Content-Type: text/html]: [ok] is called without a [url], and
    [get_http_header] reads the empty [url] as the html file type. *)
Theorem computed_result_is_served_as_html (w : World) (request : str) :
  returned (calculate_area w request) = Ok 200%Z ->
  exists body,
    sent (calculate_area w request)
    = [ascii_bytes (lit "HTTP/1.1 200 OK" ++ crlf
                    ++ lit "Date: " ++ strftime_http (now w) ++ crlf
                    ++ lit "Content-Length: " ++ str_of_int (len body) ++ crlf
                    ++ lit "Content-Type: text/html" ++ crlf ++ crlf)
       ++ body].
Proof.
  unfold calculate_area.
  destruct (negb (length _ =? 2)%nat).
  { rewrite internal_server_error_response; [discriminate|].
    now rewrite is_ascii_app, is_ascii_str_of_int. }
  destruct (negb (isnumeric _) || negb (isnumeric _)).
  { rewrite internal_server_error_response; [discriminate|reflexivity]. }
  destruct (int_of_str _) as [h|e]; [|discriminate].
  rewrite bind_lift_ok.
  destruct (int_of_str _) as [wd|e]; [|discriminate].
  rewrite bind_lift_ok.
  destruct (int_truediv _ _) as [q|e]; [|discriminate].
  rewrite bind_lift_ok. cbv zeta.
  destruct (encode _) as [data|e]; [|discriminate].
  rewrite bind_lift_ok, ok_response_data by now left.
  intros _. exists data. cbn [sent fst].
  rewrite get_http_header_no_url. unfold header_lines.
  now rewrite <- !app_assoc.
Qed.


Lemma computed_result_is_served_as_html_witness :
  returned (calculate_area demo_world (lit "calculate-area?height=10&width=4"))
  = Ok 200%Z
  /\ exists body,
       sent (calculate_area demo_world (lit "calculate-area?height=10&width=4"))
       = [ascii_bytes (lit "HTTP/1.1 200 OK" ++ crlf
                       ++ lit "Date: " ++ strftime_http (now demo_world) ++ crlf
                       ++ lit "Content-Length: " ++ str_of_int (len body) ++ crlf
                       ++ lit "Content-Type: text/html" ++ crlf ++ crlf)
          ++ body].
Proof.
  assert (H : returned (calculate_area demo_world
                          (lit "calculate-area?height=10&width=4")) = Ok 200%Z)
    by (vm_compute; reflexivity).
  split; [exact H|].
  exact (computed_result_is_served_as_html demo_world _ H).
Defined.

(* ================================================================== *)
(** * The router *)
(* ================================================================== *)

(** ** [strip] *)

Lemma lstrip_by_split drop s :
  exists a, s = a ++ lstrip_by drop s
    /\ forallb drop a = true
    /\ match lstrip_by drop s with
       | [] => True
       | c :: _ => drop c = false
       end.
Proof.
  induction s as [|c s (a & Hs & Ha & Hc)]; [now exists []|].
  cbn [lstrip_by]. destruct (drop c) eqn:E.
  - exists (c :: a). cbn. rewrite E, Ha. repeat split; [congruence|assumption].
  - now exists [].
Qed.

Lemma all_slashes a :
  forallb (mem_char (lit "/")) a = true -> a = repeat 47%N (length a).
Proof.
  induction a as [|c a IH]; [reflexivity|].
  cbn. rewrite orb_false_r. intros H.
  apply andb_true_iff in H as [Hc Ha]. apply N.eqb_eq in Hc as ->.
  now rewrite <- IH.
Qed.

Lemma hd_lstrip_rev_rstrip drop s :
  rev (rstrip_by drop s) = lstrip_by drop (rev s).
Proof. unfold rstrip_by. apply rev_involutive. Qed.

(** [strip('/')] removes every slash at both ends and nothing else. *)
Lemma strip_slashes s :
  exists a b,
    s = repeat 47%N a ++ strip (lit "/") s ++ repeat 47%N b
    /\ startswith (lit "/") (strip (lit "/") s) = false
    /\ endswith (lit "/") (strip (lit "/") s) = false.
Proof.
  unfold strip, strip_by.
  destruct (lstrip_by_split (mem_char (lit "/")) s) as (a & Hs & Ha & Hhd).
  set (t := lstrip_by (mem_char (lit "/")) s) in *.
  destruct (lstrip_by_split (mem_char (lit "/")) (rev t)) as (b & Ht & Hb & Hlast).
  rewrite <- hd_lstrip_rev_rstrip in Ht, Hlast.
  set (u := rstrip_by (mem_char (lit "/")) t) in *.
  assert (Htu : t = u ++ rev b).
  { rewrite <- (rev_involutive t), Ht, rev_app_distr. now rewrite rev_involutive. }
  exists (length a), (length b). split; [|split].
  - rewrite <- (all_slashes a Ha).
    rewrite <- (repeat_length 47%N (length b)) at 1.
    assert (Hrb : rev b = repeat 47%N (length b)).
    { rewrite <- length_rev. apply all_slashes.
      rewrite forallb_forall in *. intros x Hx. apply Hb. now apply in_rev. }
    rewrite repeat_length, <- Hrb, <- Htu. exact Hs.
  - destruct u as [|c u]; [reflexivity|].
    rewrite Htu in Hhd. cbn in Hhd. rewrite orb_false_r in Hhd.
    cbn. now rewrite N.eqb_sym, Hhd.
  - unfold endswith. destruct (rev u) as [|c r]; [reflexivity|].
    cbn in Hlast. rewrite orb_false_r in Hlast.
    cbn. now rewrite N.eqb_sym, Hlast.
Qed.

(** ** Normalization *)

(** C4 (as amended).  The empty target and [/] stand for the default
    path; from every other target all leading and all trailing slashes
    are removed, and nothing else; the web root prefix is then added
    unless the path already starts with it. *)
Theorem requested_url_strips_every_slash (resource : str) :
  ((resource = [] \/ resource = lit "/") /\ requested_url resource = DEFAULT_URL
   \/ resource <> [] /\ resource <> lit "/"
      /\ exists a b,
           resource = repeat 47%N a ++ requested_url resource ++ repeat 47%N b
           /\ startswith (lit "/") (requested_url resource) = false
           /\ endswith (lit "/") (requested_url resource) = false)
  /\ (startswith (lit "webroot/") (requested_url resource) = true
      /\ webroot_url (requested_url resource) = requested_url resource
      \/ startswith (lit "webroot/") (requested_url resource) = false
         /\ webroot_url (requested_url resource)
            = lit "webroot/" ++ requested_url resource).
Proof.
  split.
  - unfold requested_url.
    destruct (str_eqb resource []) eqn:E1; [left|].
    { apply str_eqb_eq in E1. split; [now left|reflexivity]. }
    destruct (str_eqb resource (lit "/")) eqn:E2; [left|right].
    { apply str_eqb_eq in E2. split; [now right|reflexivity]. }
    apply str_eqb_neq in E1, E2. cbn [orb]. repeat split; try assumption.
    apply strip_slashes.
  - unfold webroot_url.
    destruct (startswith (lit "webroot/") (requested_url resource));
      [left|right]; split; reflexivity.
Qed.

(** C4 (as stated) fails: of [//a/] the code keeps [a], not [/a/]. *)
Lemma more_than_one_slash_is_stripped :
  requested_url (lit "//a/") = lit "a"
  /\ claimed_url (lit "//a/") = lit "/a/"
  /\ webroot_url (requested_url (lit "//a/")) = lit "webroot/a"
  /\ webroot_url (requested_url (lit "//a/")) <> webroot_url (claimed_url (lit "//a/")).
Proof. repeat split. discriminate. Qed.

(** ** Termination *)

Lemma final_segment_under_webroot url :
  item_last (split (lit "/") (webroot_url url)) = item_last (split (lit "/") url).
Proof.
  unfold webroot_url. destruct (startswith (lit "webroot/") url); [reflexivity|].
  cbn [negb]. apply (split1_aux_last 47%N (lit "webroot") [] url).
Qed.

(** C3 (as amended).  The router stops the server exactly when the
    requested URL, before the web root prefix is added and before the
    redirection table is consulted, ends with the characters [exit];
    nothing is sent then.  This is the case whenever the final segment
    of the path, with or without the prefix, is [exit]. *)
Theorem terminate_iff_url_ends_with_exit (w : World) (resource : str) :
  (returned (handle_client_request w resource) = Ok CLOSE_SERVER_STATUS_CODE
   <-> endswith (lit "exit") (requested_url resource) = true)
  /\ (endswith (lit "exit") (requested_url resource) = true ->
      handle_client_request w resource = ([], Ok CLOSE_SERVER_STATUS_CODE))
  /\ (item_last (split (lit "/") (requested_url resource)) = lit "exit" ->
      endswith (lit "exit") (requested_url resource) = true)
  /\ (item_last (split (lit "/") (webroot_url (requested_url resource))) = lit "exit" ->
      endswith (lit "exit") (requested_url resource) = true).
Proof.
  assert (Hseg : item_last (split (lit "/") (requested_url resource)) = lit "exit" ->
                 endswith (lit "exit") (requested_url resource) = true).
  { intros <-. apply split_last_endswith. }
  assert (Hweb : item_last (split (lit "/") (webroot_url (requested_url resource)))
                 = lit "exit" ->
                 endswith (lit "exit") (requested_url resource) = true).
  { rewrite final_segment_under_webroot. exact Hseg. }
  split; [|split; [|split; assumption]].
  - destruct (handle_client_request_cases w resource) as [[E H] | [E H]].
    + rewrite H, E. now split.
    + rewrite E. split; [|discriminate].
      intros Hc. now apply responds_not_close in H.
  - intros E.
    destruct (handle_client_request_cases w resource) as [[_ H] | [E' _]];
      [assumption|congruence].
Qed.

Lemma terminate_iff_url_ends_with_exit_witness :
  endswith (lit "exit") (requested_url (lit "/webroot/exit")) = true
  /\ handle_client_request demo_world (lit "/webroot/exit")
     = ([], Ok CLOSE_SERVER_STATUS_CODE).
Proof.
  split; [reflexivity|].
  apply (proj1 (proj2 (terminate_iff_url_ends_with_exit
                         demo_world (lit "/webroot/exit")))).
  reflexivity.
Defined.

(** C3 (as stated) fails: the final segment of [/webroot/noexit] is
    [noexit], not [exit], and the router stops the server all the same. *)
Lemma terminate_on_longer_final_segment :
  item_last (split (lit "/") (requested_url (lit "/webroot/noexit"))) = lit "noexit"
  /\ item_last (split (lit "/") (webroot_url (requested_url (lit "/webroot/noexit"))))
     <> lit "exit"
  /\ handle_client_request demo_world (lit "/webroot/noexit")
     = ([], Ok CLOSE_SERVER_STATUS_CODE).
Proof. repeat split. discriminate. Qed.

(* ================================================================== *)
(** * The computed endpoint *)
(* ================================================================== *)

(** ** Decimal digits *)

Section Digits.
Local Open Scope Z_scope.

Lemma log2_div10_lt n : 10 <= n -> Z.log2 (n / 10) < Z.log2 n.
Proof.
  intros H.
  assert (Hq : 0 < n / 10) by (apply Z.div_str_pos; lia).
  apply Z.log2_lt_pow2; [assumption|].
  destruct (Z.log2_spec n ltac:(lia)) as [_ Hup].
  rewrite Z.pow_succ_r in Hup by apply Z.log2_nonneg.
  apply Z.div_lt_upper_bound; lia.
Qed.

(** More fuel than binary digits is enough. *)
Lemma digits_fuel_enough f1 : forall f2 n,
  0 <= n -> Z.log2 n < Z.of_nat f1 -> Z.log2 n < Z.of_nat f2 ->
  digits_fuel f1 n = digits_fuel f2 n.
Proof.
  induction f1 as [|f1 IH]; intros f2 n Hn H1 H2.
  - pose proof (Z.log2_nonneg n). lia.
  - destruct f2 as [|f2]; [pose proof (Z.log2_nonneg n); lia|].
    cbn [digits_fuel]. destruct (Z.ltb_spec n 10); [reflexivity|].
    pose proof (log2_div10_lt n ltac:(lia)).
    rewrite (IH f2 (n / 10)); [reflexivity| |lia|lia].
    apply Z.div_pos; lia.
Qed.

Lemma str_of_nonneg_small n : 0 <= n < 10 -> str_of_nonneg n = [digit_char n].
Proof.
  intros H. unfold str_of_nonneg. cbn [digits_fuel].
  destruct (Z.ltb_spec n 10); [reflexivity|lia].
Qed.

Lemma str_of_nonneg_step n :
  10 <= n -> str_of_nonneg n = str_of_nonneg (n / 10) ++ [digit_char (n mod 10)].
Proof.
  intros H. unfold str_of_nonneg at 1. cbn [digits_fuel].
  destruct (Z.ltb_spec n 10); [lia|]. f_equal.
  pose proof (log2_div10_lt n H). pose proof (Z.log2_nonneg (n / 10)).
  apply digits_fuel_enough; [apply Z.div_pos; lia|lia|lia].
Qed.

Lemma str_of_nonneg_snoc n d :
  0 < n -> 0 <= d < 10 ->
  str_of_nonneg (10 * n + d) = str_of_nonneg n ++ [digit_char d].
Proof.
  intros Hn Hd. rewrite str_of_nonneg_step by lia.
  replace ((10 * n + d) / 10) with n
    by (apply (Z.div_unique _ 10 n d); lia).
  replace ((10 * n + d) mod 10) with d
    by (apply (Z.mod_unique _ 10 n d); lia).
  reflexivity.
Qed.

Lemma str_of_nonneg_shift c (j : nat) :
  0 < c -> str_of_nonneg (c * 10 ^ Z.of_nat j) = str_of_nonneg c ++ repeat 48%N j.
Proof.
  intros Hc. induction j as [|j IH].
  - cbn [repeat]. now rewrite Z.mul_1_r, app_nil_r.
  - rewrite Nat2Z.inj_succ, Z.pow_succ_r by lia.
    replace (c * (10 * 10 ^ Z.of_nat j)) with (10 * (c * 10 ^ Z.of_nat j) + 0) by ring.
    rewrite str_of_nonneg_snoc, IH by lia.
    rewrite <- app_assoc. f_equal.
    change [digit_char 0] with (repeat 48%N 1).
    rewrite <- repeat_app. f_equal. lia.
Qed.

Lemma numdigits_pos n : 0 <= n -> 1 <= numdigits n.
Proof.
  intros Hn. unfold numdigits.
  destruct (Z.ltb_spec n 10).
  - now rewrite str_of_nonneg_small.
  - rewrite str_of_nonneg_step, length_app by assumption. cbn [length]. lia.
Qed.

Lemma numdigits_bound (k : nat) : forall n,
  0 <= n < 10 ^ Z.of_nat (S k) -> numdigits n <= Z.of_nat (S k).
Proof.
  unfold numdigits. induction k as [|k IH]; intros n Hn.
  - rewrite str_of_nonneg_small by (change (10 ^ Z.of_nat 1) with 10 in Hn; lia).
    cbn. lia.
  - destruct (Z.ltb_spec n 10).
    + rewrite str_of_nonneg_small by lia. cbn [length]. lia.
    + rewrite str_of_nonneg_step, length_app by assumption. cbn [length].
      assert (0 <= n / 10 < 10 ^ Z.of_nat (S k)).
      { split; [apply Z.div_pos; lia|].
        apply Z.div_lt_upper_bound; [lia|].
        rewrite (Nat2Z.inj_succ (S k)), Z.pow_succ_r in Hn; lia. }
      specialize (IH _ H0). lia.
Qed.

(** [rstrip('0')] only removes zeros at the end. *)
Lemma rstrip_zeros ds :
  exists z : nat, ds = rstrip_by (N.eqb 48) ds ++ repeat 48%N z.
Proof.
  unfold rstrip_by.
  destruct (lstrip_by_split (N.eqb 48) (rev ds)) as (a & Hs & Ha & _).
  exists (length a).
  apply (f_equal (@rev _)) in Hs. rewrite rev_involutive, rev_app_distr in Hs.
  etransitivity; [exact Hs|]. f_equal.
  clear Hs. induction a as [|c a IH]; [reflexivity|].
  cbn [forallb] in Ha. apply andb_true_iff in Ha as [Hc Ha].
  apply N.eqb_eq in Hc as <-.
  cbn [rev length]. rewrite IH by assumption.
  change [48%N] with (repeat 48%N 1). rewrite <- repeat_app. f_equal. lia.
Qed.

Lemma rstrip_keeps_nonzero_end ds c :
  c <> 48%N -> rstrip_by (N.eqb 48) (ds ++ [c]) = ds ++ [c].
Proof.
  intros Hc. unfold rstrip_by. rewrite rev_app_distr. cbn [rev app lstrip_by].
  destruct (N.eqb_spec 48 c); [congruence|].
  cbn [rev]. now rewrite rev_involutive.
Qed.

End Digits.

(** ** Halves of integers below [2 ^ 53] as floats

    The half of [a] is the double [m * 2 ^ e] with [m = a * 2 ^ s] and
    [e = - (s + 1)]; [s] is the shift that normalizes the mantissa.  In
    units of [2 ^ (e - 2)] the double is [a * 2 ^ (s + 2)], at least four
    units away from every other multiple of one half, while the midpoints
    to its neighbours are at most two units away. *)

Section HalfAsDouble.
Local Open Scope Z_scope.

Variables a s m e : Z.
Hypothesis Ha : 0 < a.
Hypothesis Hs : 0 <= s.
Hypothesis Hm : m = a * 2 ^ s.
Hypothesis He : e = - (s + 1).

Let K := 2 ^ (s + 2).

Local Lemma unit_facts : 4 <= K /\ 4 * m = a * K /\ 2 ^ (s + 3) = 2 * K
                         /\ 2 ^ (s + 1) = 2 * 2 ^ s /\ 0 < 2 ^ s.
Proof.
  unfold K. pose proof (Z.pow_pos_nonneg 2 s ltac:(lia) Hs).
  replace (s + 3) with (Z.succ (s + 2)) by lia.
  replace (s + 2) with (Z.succ (Z.succ s)) by lia.
  replace (s + 1) with (Z.succ s) by lia.
  rewrite !Z.pow_succ_r by lia. rewrite Hm. repeat split; lia.
Qed.

Local Lemma lower_midpoint :
  let lo := if (m =? 2 ^ 52) && (- 1074 <? e) then 4 * m - 1 else 4 * m - 2 in
  4 * m - 2 <= lo <= 4 * m - 1.
Proof. cbv zeta. destruct (_ && _)%bool; lia. Qed.

(** An integer rounds to the half of [a] only if it is that half. *)
Lemma rounds_to_integer c j :
  0 <= j -> rounds_to m e c j = (2 * (c * 10 ^ j) =? a).
Proof.
  intros Hj. unfold rounds_to, cmp_dec_bin.
  pose proof lower_midpoint as Hlo. cbv zeta in Hlo.
  set (lo := if (_ && _)%bool then _ else _) in *.
  replace (Z.max 0 j) with j by lia.
  replace (Z.max 0 (- (e - 2))) with (s + 3) by lia.
  replace (Z.max 0 (e - 2)) with 0 by lia.
  replace (Z.max 0 (- j)) with 0 by lia.
  rewrite Z.pow_0_r, !Z.mul_1_r.
  destruct unit_facts as (HK & H4m & H2K & _). rewrite H2K.
  set (Y := c * 10 ^ j).
  destruct (Z.eqb_spec (2 * Y) a) as [E|E].
  - replace (Y * (2 * K)) with (4 * m) by (rewrite H4m, <- E; ring).
    rewrite (proj2 (Z.compare_gt_iff _ _)) by lia.
    now rewrite (proj2 (Z.compare_lt_iff _ _)) by lia.
  - assert (Hcase : 2 * Y <= a - 1 \/ a + 1 <= 2 * Y) by lia.
    destruct Hcase as [Hlt|Hgt].
    + assert (0 <= (a - 1 - 2 * Y) * K) by (apply Z.mul_nonneg_nonneg; lia).
      now rewrite (proj2 (Z.compare_lt_iff (Y * (2 * K)) lo)) by lia.
    + assert (0 <= (2 * Y - a - 1) * K) by (apply Z.mul_nonneg_nonneg; lia).
      rewrite (proj2 (Z.compare_gt_iff (Y * (2 * K)) lo)) by lia.
      now rewrite (proj2 (Z.compare_gt_iff (Y * (2 * K)) (4 * m + 2))) by lia.
Qed.

(** With one digit after the point the half of [a] is written exactly. *)
Lemma rounds_to_tenths : rounds_to m e (5 * a) (- 1) = true.
Proof.
  unfold rounds_to, cmp_dec_bin.
  pose proof lower_midpoint as Hlo. cbv zeta in Hlo.
  set (lo := if (_ && _)%bool then _ else _) in *.
  replace (Z.max 0 (- 1)) with 0 by lia.
  replace (Z.max 0 (- (e - 2))) with (s + 3) by lia.
  replace (Z.max 0 (e - 2)) with 0 by lia.
  replace (Z.max 0 (- - 1)) with 1 by lia.
  rewrite Z.pow_0_r, Z.pow_1_r, !Z.mul_1_r.
  destruct unit_facts as (HK & H4m & H2K & _). rewrite H2K.
  replace (5 * a * (2 * K)) with (4 * m * 10) by (rewrite H4m; ring).
  rewrite (proj2 (Z.compare_gt_iff _ _)) by lia.
  now rewrite (proj2 (Z.compare_lt_iff _ _)) by lia.
Qed.

Lemma floor_scaled_integer j : 0 <= j -> floor_scaled m e j = a / 2 / 10 ^ j.
Proof.
  intros Hj. unfold floor_scaled.
  replace (Z.max 0 e) with 0 by lia.
  replace (Z.max 0 (- j)) with 0 by lia.
  replace (Z.max 0 (- e)) with (s + 1) by lia.
  replace (Z.max 0 j) with j by lia.
  rewrite Z.pow_0_r, !Z.mul_1_r.
  destruct unit_facts as (_ & _ & _ & H2s & Hpos).
  pose proof (Z.pow_pos_nonneg 10 j ltac:(lia) Hj).
  rewrite <- Z.div_div by lia. f_equal.
  rewrite Hm, H2s. apply Z.div_mul_cancel_r; lia.
Qed.

Lemma floor_scaled_tenths : floor_scaled m e (- 1) = 5 * a.
Proof.
  unfold floor_scaled.
  replace (Z.max 0 e) with 0 by lia.
  replace (Z.max 0 (- - 1)) with 1 by lia.
  replace (Z.max 0 (- e)) with (s + 1) by lia.
  replace (Z.max 0 (- 1)) with 0 by lia.
  rewrite Z.pow_0_r, Z.pow_1_r, !Z.mul_1_r.
  destruct unit_facts as (_ & _ & _ & H2s & Hpos).
  rewrite Hm, H2s.
  replace (a * 2 ^ s * 10) with (5 * a * (2 * 2 ^ s)) by ring.
  apply Z.div_mul. lia.
Qed.

(** The candidates with no digit after the point. *)
Lemma candidate_integer E k :
  k <= E ->
  candidate m e E k
  = if 2 * (a / 2 / 10 ^ (E - k) * 10 ^ (E - k)) =? a
    then Some (a / 2 / 10 ^ (E - k)) else None.
Proof.
  intros Hk. unfold candidate.
  rewrite !rounds_to_integer, floor_scaled_integer by lia.
  set (P := 10 ^ (E - k)).
  assert (HP : 0 < P) by (apply Z.pow_pos_nonneg; lia).
  pose proof (Z.mul_div_le (a / 2) P HP).
  pose proof (Z.mul_succ_div_gt (a / 2) P HP).
  pose proof (Z.mul_div_le a 2 ltac:(lia)).
  pose proof (Z.mul_succ_div_gt a 2 ltac:(lia)).
  destruct (Z.eqb_spec (2 * ((a / 2 / P + 1) * P)) a) as [E2|_]; [lia|].
  now destruct (Z.eqb_spec (2 * (a / 2 / P * P)) a).
Qed.

(** The candidate with one digit after the point. *)
Lemma candidate_tenths E : candidate m e E (E + 1) = Some (5 * a).
Proof.
  unfold candidate. replace (E - (E + 1)) with (- 1) by lia.
  rewrite floor_scaled_tenths, rounds_to_tenths.
  destruct (rounds_to m e (5 * a + 1) (- 1)); [|reflexivity].
  unfold cmp_dec_bin.
  replace (Z.max 0 (- 1)) with 0 by lia.
  replace (Z.max 0 (- e)) with (s + 1) by lia.
  replace (Z.max 0 e) with 0 by lia.
  replace (Z.max 0 (- - 1)) with 1 by lia.
  rewrite Z.pow_0_r, Z.pow_1_r, !Z.mul_1_r.
  destruct unit_facts as (_ & _ & _ & H2s & Hpos).
  now rewrite (proj2 (Z.compare_gt_iff _ _)) by (rewrite Hm, H2s; lia).
Qed.

Lemma decimal_point_half : 2 <= a -> decimal_point m e = numdigits (a / 2).
Proof.
  intros H2. unfold decimal_point.
  replace (Z.max 0 e) with 0 by lia.
  replace (Z.max 0 (- e)) with (s + 1) by lia.
  rewrite Z.pow_0_r, Z.mul_1_r.
  destruct unit_facts as (_ & _ & _ & H2s & Hpos).
  destruct (Z.leb_spec (2 ^ (s + 1)) m) as [_|Hlt]; [|rewrite Hm, H2s in Hlt; nia].
  f_equal. rewrite Hm, H2s. apply Z.div_mul_cancel_r; lia.
Qed.

End HalfAsDouble.

(** ** The text of such a half *)

Section HalfAsText.
Local Open Scope Z_scope.

Variables a s m e : Z.
Hypothesis Ha : 2 <= a.
Hypothesis Hs : 0 <= s.
Hypothesis Hm : m = a * 2 ^ s.
Hypothesis He : e = - (s + 1).

Let n := a / 2.
Let E := numdigits n.

Local Lemma half_pos : 0 < n.
Proof. unfold n. apply Z.div_str_pos. lia. Qed.

(** An even [a]: the search stops at some [c * 10 ^ j = a / 2]. *)
Lemma search_even (fuel : nat) : forall k,
  a = 2 * n -> 1 <= k <= E -> E - k < Z.of_nat fuel ->
  exists c (j : nat),
    shortest_from fuel m e E k = (c, Z.of_nat j)
    /\ 0 < c /\ c * 10 ^ Z.of_nat j = n.
Proof.
  pose proof half_pos as Hn.
  induction fuel as [|fuel IH]; intros k Heven Hk Hfuel; [lia|].
  cbn [shortest_from].
  rewrite (candidate_integer a s m e) by lia. fold n.
  set (P := 10 ^ (E - k)).
  assert (HP : 0 < P) by (apply Z.pow_pos_nonneg; lia).
  destruct (Z.eqb_spec (2 * (n / P * P)) a) as [Hit|Hmiss].
  - exists (n / P), (Z.to_nat (E - k)).
    rewrite Z2Nat.id by lia. fold P. repeat split; [nia|lia].
  - assert (k < E).
    { destruct (Z.eq_dec k E) as [->|]; [|lia].
      exfalso. apply Hmiss. unfold P. rewrite Z.sub_diag, Z.pow_0_r, Z.div_1_r. lia. }
    apply IH; [assumption|lia|lia].
Qed.

(** An odd [a]: no integer will do, one digit after the point will. *)
Lemma search_odd (fuel : nat) : forall k,
  a = 2 * n + 1 -> 1 <= k <= E + 1 -> E + 1 - k < Z.of_nat fuel ->
  shortest_from fuel m e E k = (5 * a, - 1).
Proof.
  induction fuel as [|fuel IH]; intros k Hodd Hk Hfuel; [lia|].
  cbn [shortest_from].
  destruct (Z.eq_dec k (E + 1)) as [->|Hne].
  - rewrite (candidate_tenths a s m e) by lia. f_equal. lia.
  - rewrite (candidate_integer a s m e) by lia.
    destruct (Z.eqb_spec (2 * (a / 2 / 10 ^ (E - k) * 10 ^ (E - k))) a) as [Hit|_];
      [lia|].
    apply IH; [assumption|lia|lia].
Qed.

Hypothesis Hsmall : n < 10 ^ 16.

Local Lemma point_bounds : 1 <= E <= 16.
Proof.
  pose proof half_pos. unfold E. split; [apply numdigits_pos; lia|].
  apply (numdigits_bound 15). change (Z.of_nat 16) with 16. lia.
Qed.

Lemma float_str_even :
  a = 2 * n -> float_str (mkfloat false m e) = str_of_nonneg n ++ [46; 48]%N.
Proof.
  intros Heven. pose proof half_pos as Hn. pose proof point_bounds as HE.
  unfold float_str. cbn [fneg fmant fexp app].
  assert (Hpow : 0 < 2 ^ s) by (apply Z.pow_pos_nonneg; lia).
  destruct (Z.eqb_spec m 0) as [Hz|_]; [nia|].
  unfold shortest_digits.
  rewrite (decimal_point_half a s m e) by lia. fold n. fold E.
  destruct (search_even 17 1 Heven ltac:(lia) ltac:(lia)) as (c & j & -> & Hc & Hcj).
  destruct (rstrip_zeros (str_of_nonneg c)) as (z & Hz).
  set (ds := rstrip_by (N.eqb 48) (str_of_nonneg c)) in *.
  assert (Hlen : Z.of_nat (length (str_of_nonneg c))
                 = Z.of_nat (length ds) + Z.of_nat z).
  { rewrite Hz at 1. rewrite length_app, repeat_length. lia. }
  assert (Hnum : str_of_nonneg n = str_of_nonneg c ++ repeat 48%N j).
  { rewrite <- Hcj. now apply str_of_nonneg_shift. }
  assert (HEj : E = Z.of_nat j + Z.of_nat (length (str_of_nonneg c))).
  { unfold E, numdigits. rewrite Hnum, length_app, repeat_length. lia. }
  unfold format_short. rewrite <- HEj.
  destruct (Z.leb_spec E (- 4)); [lia|]. destruct (Z.ltb_spec 16 E); [lia|].
  cbn [orb]. destruct (Z.leb_spec E 0); [lia|].
  destruct (Z.ltb_spec E (Z.of_nat (length ds))); [lia|].
  rewrite Hnum, Hz, <- !app_assoc. f_equal.
  rewrite (app_assoc (repeat _ _)), <- repeat_app. f_equal.
  unfold zeros. f_equal. lia.
Qed.

Lemma float_str_odd :
  a = 2 * n + 1 -> float_str (mkfloat false m e) = str_of_nonneg n ++ [46; 53]%N.
Proof.
  intros Hodd. pose proof half_pos as Hn. pose proof point_bounds as HE.
  unfold float_str. cbn [fneg fmant fexp app].
  assert (Hpow : 0 < 2 ^ s) by (apply Z.pow_pos_nonneg; lia).
  destruct (Z.eqb_spec m 0) as [Hz|_]; [nia|].
  unfold shortest_digits.
  rewrite (decimal_point_half a s m e) by lia. fold n. fold E.
  rewrite (search_odd 17 1 Hodd) by lia.
  replace (5 * a) with (10 * n + 5) by lia.
  rewrite str_of_nonneg_snoc by lia.
  rewrite rstrip_keeps_nonzero_end by discriminate.
  rewrite length_app. cbn [length].
  replace (- 1 + Z.of_nat (length (str_of_nonneg n) + 1)) with E
    by (unfold E, numdigits; lia).
  unfold format_short.
  destruct (Z.leb_spec E (- 4)); [lia|]. destruct (Z.ltb_spec 16 E); [lia|].
  cbn [orb]. destruct (Z.leb_spec E 0); [lia|].
  rewrite length_app. cbn [length].
  unfold E, numdigits. rewrite Nat2Z.id.
  match goal with
  | |- context [Z.ltb ?x ?y] =>
      destruct (Z.ltb_spec x y) as [_|Hge]; [|unfold str, char in Hge; lia]
  end.
  rewrite firstn_app, firstn_all, Nat.sub_diag, skipn_app, skipn_all, Nat.sub_diag.
  cbn [firstn skipn app]. rewrite app_nil_r. reflexivity.
Qed.

End HalfAsText.

(** ** Dividing by two *)

Section Halving.
Local Open Scope Z_scope.

Lemma round_binary64_half a :
  0 < a < 2 ^ 53 ->
  round_binary64 a 2
  = Some (a * 2 ^ (52 - Z.log2 a), - (52 - Z.log2 a + 1)).
Proof.
  intros [Hpos Hlt].
  destruct (Z.log2_spec a Hpos) as [Hlo Hhi].
  assert (Hb : Z.log2 a < 53) by now apply Z.log2_lt_pow2.
  pose proof (Z.log2_nonneg a) as Hb0.
  set (b := Z.log2 a) in *.
  rewrite Z.pow_succ_r in Hhi by assumption.
  assert (Hfl : floor_log2_ratio a 2 = b - 1).
  { unfold floor_log2_ratio. fold b. change (Z.log2 2) with 1.
    destruct (Z.eq_dec b 0) as [Hz|Hnz].
    - rewrite Hz in *. change (2 ^ 0) with 1 in *.
      assert (a = 1) by lia. subst a. reflexivity.
    - replace (Z.max 0 (- (b - 1))) with 0 by lia.
      replace (Z.max 0 (b - 1)) with (b - 1) by lia.
      rewrite Z.pow_0_r, Z.mul_1_r, <- Z.pow_succ_r by lia.
      replace (Z.succ (b - 1)) with b by lia.
      destruct (Z.ltb_spec a (2 ^ b)); [lia|reflexivity]. }
  unfold round_binary64. rewrite Hfl.
  replace (Z.max (b - 1 - 52) (- 1074)) with (b - 53) by lia.
  replace (Z.max 0 (- (b - 53))) with (Z.succ (52 - b)) by lia.
  replace (Z.max 0 (b - 53)) with 0 by lia.
  rewrite Z.pow_0_r, Z.mul_1_r, Z.pow_succ_r by lia.
  set (M := a * 2 ^ (52 - b)).
  assert (HM : 0 < M < 2 ^ 53).
  { assert (Hp : 0 < 2 ^ (52 - b)) by (apply Z.pow_pos_nonneg; lia).
    split; [unfold M; nia|].
    replace 53 with (Z.succ b + (52 - b)) by lia.
    rewrite Z.pow_add_r, Z.pow_succ_r by lia. unfold M. nia. }
  assert (Hround : round_half_even (a * (2 * 2 ^ (52 - b))) 2 = M).
  { unfold round_half_even.
    replace (a * (2 * 2 ^ (52 - b))) with (M * 2) by (unfold M; ring).
    rewrite Z.div_mul, Z.mod_mul by lia. reflexivity. }
  rewrite Hround.
  destruct (Z.eqb_spec M (2 ^ 53)); [lia|].
  destruct (Z.ltb_spec 1024 (b - 53 + 53)); [lia|].
  do 2 f_equal. lia.
Qed.

Lemma int_truediv_half a :
  0 < a < 2 ^ 53 ->
  int_truediv a 2
  = Ok (mkfloat false (a * 2 ^ (52 - Z.log2 a)) (- (52 - Z.log2 a + 1))).
Proof.
  intros Ha. unfold int_truediv. change (2 =? 0) with false. cbn iota.
  destruct (Z.eqb_spec a 0); [lia|].
  rewrite Z.abs_eq by lia. change (Z.abs 2) with 2.
  rewrite round_binary64_half by assumption.
  destruct (Z.ltb_spec a 0); [lia|]. reflexivity.
Qed.

(** The half of an integer below [2 ^ 53] is a double, and its text is
    the exact decimal expansion. *)
Lemma half_as_text a :
  0 <= a < 2 ^ 53 ->
  exists q, int_truediv a 2 = Ok q
    /\ float_str q
       = str_of_nonneg (a / 2) ++ (if Z.even a then [46; 48]%N else [46; 53]%N).
Proof.
  intros [Hpos Hlt].
  destruct (Z.eq_dec a 0) as [->|Hnz]; [eexists; split; reflexivity|].
  destruct (Z.eq_dec a 1) as [->|Hn1]; [eexists; split; reflexivity|].
  eexists. split; [apply int_truediv_half; lia|].
  assert (Hb : Z.log2 a < 53) by (apply Z.log2_lt_pow2; lia).
  assert (Hhalf : a / 2 < 10 ^ 16).
  { apply Z.div_lt_upper_bound; lia. }
  pose proof (Z.div_mod a 2 ltac:(lia)) as Hdm.
  rewrite Zeven_mod. destruct (Z.eqb_spec (a mod 2) 0) as [Hev|Hod].
  - apply (float_str_even a (52 - Z.log2 a)); try lia; reflexivity.
  - pose proof (Z.mod_pos_bound a 2 ltac:(lia)).
    apply (float_str_odd a (52 - Z.log2 a)); try lia; reflexivity.
Qed.

End Halving.

(** ** Digit strings *)

Lemma is_digit_cases c :
  is_digit c = true ->
  (c = 48 \/ c = 49 \/ c = 50 \/ c = 51 \/ c = 52
   \/ c = 53 \/ c = 54 \/ c = 55 \/ c = 56 \/ c = 57)%N.
Proof.
  unfold is_digit. rewrite andb_true_iff, N.leb_le, N.leb_le. lia.
Qed.

(** Run a tactic on each of the ten digits. *)
Ltac each_digit H :=
  apply is_digit_cases in H;
  repeat (destruct H as [H|H]; [subst|]); subst.

Lemma decimal_value_digit c :
  is_digit c = true -> decimal_value c = Some (Z.of_N c - 48)%Z.
Proof. intros H. each_digit H; reflexivity. Qed.

Lemma isnumeric_char_digit c : is_digit c = true -> isnumeric_char c = true.
Proof. intros H. each_digit H; reflexivity. Qed.

Lemma isspace_digit c : is_digit c = true -> isspace c = false.
Proof. intros H. each_digit H; reflexivity. Qed.

Lemma all_digits_forall s :
  all_digits s = true -> s <> [] /\ forallb is_digit s = true.
Proof. destruct s; [discriminate|]. now split. Qed.

Lemma isnumeric_digits s : all_digits s = true -> isnumeric s = true.
Proof.
  intros H. apply all_digits_forall in H as [Hne H].
  destruct s as [|c s]; [congruence|]. unfold isnumeric.
  rewrite forallb_forall in *. intros x Hx. now apply isnumeric_char_digit, H.
Qed.

Lemma lstrip_by_keeps drop s :
  forallb (fun c => negb (drop c)) s = true -> lstrip_by drop s = s.
Proof.
  destruct s as [|c s]; [reflexivity|]. cbn.
  intros H. apply andb_true_iff in H as [Hc _].
  apply negb_true_iff in Hc. now rewrite Hc.
Qed.

Lemma strip_by_keeps drop s :
  forallb (fun c => negb (drop c)) s = true -> strip_by drop s = s.
Proof.
  intros H. unfold strip_by, rstrip_by.
  rewrite (lstrip_by_keeps drop s H), lstrip_by_keeps; [apply rev_involutive|].
  rewrite forallb_forall in *. intros x Hx. apply H. now apply in_rev.
Qed.

Lemma int_digits_value s : forall acc after,
  forallb is_digit s = true -> s <> [] \/ after = true ->
  int_digits s acc after
  = Some (fold_left (fun acc c => 10 * acc + (Z.of_N c - 48))%Z s acc).
Proof.
  induction s as [|c s IH]; intros acc after Hd Hne.
  - destruct Hne as [Hne| ->]; [congruence|reflexivity].
  - cbn in Hd. apply andb_true_iff in Hd as [Hc Hs].
    cbn [int_digits fold_left]. rewrite (decimal_value_digit c Hc).
    apply IH; [assumption|now right].
Qed.

Lemma count_digits_all s : forallb is_digit s = true -> count_digits s = len s.
Proof.
  intros H. unfold count_digits, len. do 2 f_equal.
  induction s as [|c s IH]; [reflexivity|].
  cbn [forallb] in H. apply andb_true_iff in H as [Hc Hs].
  cbn [List.filter]. rewrite (decimal_value_digit c Hc). now rewrite IH.
Qed.

(** [int] reads a digit string of at most [max_str_digits] digits as the
    number it writes. *)
Lemma int_of_digits s :
  all_digits s = true -> (len s <= max_str_digits)%Z ->
  int_of_str s = Ok (digits_value s).
Proof.
  intros H Hlen. apply all_digits_forall in H as [Hne Hd].
  unfold int_of_str. rewrite strip_by_keeps.
  - assert (Hbody : (let '(neg, body) :=
                       match s with
                       | 43%N :: r => (false, r)
                       | 45%N :: r => (true, r)
                       | _ => (false, s)
                       end in
                     match int_digits body 0 false with
                     | Some v =>
                         if (max_str_digits <? count_digits body)%Z
                         then Raise ValueError
                         else Ok (if neg then (- v)%Z else v)
                     | None => Raise ValueError
                     end)
                    = match int_digits s 0 false with
                      | Some v =>
                          if (max_str_digits <? count_digits s)%Z
                          then Raise ValueError else Ok v
                      | None => Raise ValueError
                      end).
    { destruct s as [|c s]; [congruence|].
      cbn [forallb] in Hd. apply andb_true_iff in Hd as [Hc _].
      each_digit Hc; reflexivity. }
    rewrite Hbody, int_digits_value, count_digits_all by (assumption || now left).
    destruct (Z.ltb_spec max_str_digits (len s)); [lia|reflexivity].
  - rewrite forallb_forall in *. intros x Hx.
    now rewrite isspace_digit by now apply Hd.
Qed.

Lemma fold_digits_nonneg s : forall acc,
  (0 <= acc)%Z -> forallb is_digit s = true ->
  (0 <= fold_left (fun acc c => 10 * acc + (Z.of_N c - 48)) s acc)%Z.
Proof.
  induction s as [|c s IH]; intros acc Hacc Hd; [assumption|].
  cbn in Hd. apply andb_true_iff in Hd as [Hc Hs].
  cbn [fold_left]. apply IH; [|assumption].
  unfold is_digit in Hc. rewrite andb_true_iff, !N.leb_le in Hc. lia.
Qed.

Lemma digits_value_nonneg s : all_digits s = true -> (0 <= digits_value s)%Z.
Proof.
  intros H. apply all_digits_forall in H as [_ H].
  now apply fold_digits_nonneg.
Qed.

Lemma digits_lack c s :
  is_digit c = false -> forallb is_digit s = true -> lacks c s = true.
Proof.
  intros Hc Hs. unfold lacks. rewrite forallb_forall in *. intros x Hx.
  destruct (N.eqb_spec c x) as [->|]; [|reflexivity].
  rewrite (Hs x Hx) in Hc. discriminate.
Qed.

(** ** [calculate_area] *)

Lemma area_request_parameters name height width :
  all_digits height = true -> all_digits width = true ->
  let request := area_request name height width in
  let parameters := split (lit "&") (item_last (split (lit "?") request)) in
  parameters = [lit "height=" ++ height; lit "width=" ++ width]
  /\ item_last (split (lit "=") (item parameters 0)) = height
  /\ item_last (split (lit "=") (item parameters 1)) = width.
Proof.
  intros Hh Hw. apply all_digits_forall in Hh as [_ Hh], Hw as [_ Hw].
  cbv zeta.
  assert (Hq : item_last (split (lit "?") (area_request name height width))
               = (lit "height=" ++ height) ++ 38%N :: lit "width=" ++ width).
  { rewrite <- app_assoc.
    apply (split1_last 63%N name (lit "height=" ++ height ++ lit "&width=" ++ width)).
    rewrite !lacks_app, (digits_lack 63%N height), (digits_lack 63%N width)
      by (assumption || reflexivity).
    reflexivity. }
  rewrite Hq.
  assert (Ha : split (lit "&") ((lit "height=" ++ height) ++ 38%N :: lit "width=" ++ width)
               = [lit "height=" ++ height; lit "width=" ++ width]).
  { change (lit "&") with [38%N].
    rewrite split1_cons, split1_lacks; [reflexivity| |].
    - rewrite lacks_app, (digits_lack 38%N width) by (assumption || reflexivity).
      reflexivity.
    - rewrite lacks_app, (digits_lack 38%N height) by (assumption || reflexivity).
      reflexivity. }
  rewrite Ha. split; [reflexivity|]. cbn [item nth]. split.
  - apply (split1_last 61%N (lit "height") height).
    now apply digits_lack.
  - apply (split1_last 61%N (lit "width") width).
    now apply digits_lack.
Qed.

Lemma strip_point_zero S :
  (if endswith (lit ".0") (S ++ [46; 48]%N)
   then firstn (length (S ++ [46; 48]%N) - 2) (S ++ [46; 48]%N)
   else S ++ [46; 48]%N) = S.
Proof.
  change (lit ".0") with [46; 48]%N. rewrite endswith_app, length_app.
  cbn [length]. replace (length S + 2 - 2)%nat with (length S + 0)%nat by lia.
  rewrite firstn_app_2. cbn [firstn]. apply app_nil_r.
Qed.

Lemma keep_point_five S :
  (if endswith (lit ".0") (S ++ [46; 53]%N)
   then firstn (length (S ++ [46; 53]%N) - 2) (S ++ [46; 53]%N)
   else S ++ [46; 53]%N) = S ++ [46; 53]%N.
Proof.
  unfold endswith. rewrite rev_app_distr. reflexivity.
Qed.

(** C2 (as amended).  For digit strings [height] and [width] of at most
    4300 digits each (more make [int] raise) whose product is below
    [2 ^ 53] the computed endpoint answers 200 with the exact decimal
    rendering of half the product as the body: the quotient alone when
    the product is even, followed by [.5] when it is odd. *)
Theorem area_is_exact_below_2_53 (w : World) (name height width : str) :
  all_digits height = true -> all_digits width = true ->
  (len height <= max_str_digits)%Z -> (len width <= max_str_digits)%Z ->
  (digits_value height * digits_value width < 2 ^ 53)%Z ->
  let body := exact_half (digits_value height * digits_value width) in
  calculate_area w (area_request name height width)
  = ([ascii_bytes (lit "HTTP/1.1 200 OK" ++ crlf ++ get_http_header w (len body) [])
      ++ ascii_bytes body], Ok 200%Z).
Proof.
  intros Hh Hw Hlh Hlw Hlt body.
  destruct (area_request_parameters name height width Hh Hw) as (Hp & Hph & Hpw).
  cbv zeta in Hp, Hph, Hpw.
  unfold calculate_area. rewrite Hph, Hpw, Hp. cbn [length Nat.eqb negb].
  rewrite !isnumeric_digits by assumption. cbn [negb orb].
  rewrite !int_of_digits, !bind_lift_ok by assumption.
  pose proof (digits_value_nonneg _ Hh). pose proof (digits_value_nonneg _ Hw).
  set (p := (digits_value height * digits_value width)%Z) in *.
  assert (Hp0 : (0 <= p)%Z) by (unfold p; lia).
  destruct (half_as_text p (conj Hp0 Hlt)) as (q & -> & Hq).
  rewrite bind_lift_ok. cbv zeta. rewrite Hq.
  assert (Harea : (if endswith (lit ".0")
                        (str_of_nonneg (p / 2)
                         ++ (if Z.even p then [46; 48]%N else [46; 53]%N))
                   then firstn
                          (length (str_of_nonneg (p / 2)
                                   ++ (if Z.even p then [46; 48]%N else [46; 53]%N)) - 2)
                          (str_of_nonneg (p / 2)
                           ++ (if Z.even p then [46; 48]%N else [46; 53]%N))
                   else str_of_nonneg (p / 2)
                        ++ (if Z.even p then [46; 48]%N else [46; 53]%N))
                  = body).
  { assert (Hs : str_of_int (p / 2) = str_of_nonneg (p / 2)).
    { unfold str_of_int. assert (0 <= p / 2)%Z by (apply Z.div_pos; lia).
      destruct (Z.ltb_spec (p / 2) 0); [lia|reflexivity]. }
    unfold body, exact_half. rewrite Hs.
    destruct (Z.even p); [apply strip_point_zero|apply keep_point_five]. }
  rewrite Harea.
  assert (Hascii : is_ascii body = true).
  { unfold body, exact_half.
    destruct (Z.even _); now rewrite ?is_ascii_app, is_ascii_str_of_int. }
  rewrite (encode_ascii _ Hascii), bind_lift_ok, ok_response_data by now left.
  now rewrite len_ascii_bytes.
Qed.

Lemma area_is_exact_below_2_53_witness :
  all_digits (lit "3") = true
  /\ (len (lit "3") <= max_str_digits)%Z
  /\ (digits_value (lit "3") * digits_value (lit "3") < 2 ^ 53)%Z
  /\ calculate_area demo_world (lit "calculate-area?height=3&width=3")
     = ([ascii_bytes (lit "HTTP/1.1 200 OK" ++ crlf ++ get_http_header demo_world 3 [])
         ++ ascii_bytes (lit "4.5")], Ok 200%Z).
Proof.
  assert (Hlen : (len (lit "3") <= max_str_digits)%Z) by (vm_compute; discriminate).
  split; [reflexivity|]. split; [exact Hlen|]. split; [reflexivity|].
  exact (area_is_exact_below_2_53 demo_world (lit "calculate-area")
           (lit "3") (lit "3") eq_refl eq_refl Hlen Hlen eq_refl).
Defined.

(** The same on the other example of the specification. *)
Lemma area_of_ten_by_four :
  calculate_area demo_world (lit "calculate-area?height=10&width=4")
  = ([ascii_bytes (lit "HTTP/1.1 200 OK" ++ crlf ++ get_http_header demo_world 2 [])
      ++ ascii_bytes (lit "20")], Ok 200%Z).
Proof. vm_compute. reflexivity. Qed.

(** C2 (as stated) fails above [2 ^ 53]: half of 9007199254740993 is
    4503599627370496.5, which is not a double; the quotient is rounded
    and the body is [4503599627370496]. *)
Lemma area_is_rounded_above_2_53 :
  all_digits (lit "9007199254740993") = true
  /\ all_digits (lit "1") = true
  /\ exact_half (digits_value (lit "9007199254740993") * digits_value (lit "1"))
     = lit "4503599627370496.5"
  /\ calculate_area demo_world
       (area_request (lit "calculate-area") (lit "9007199254740993") (lit "1"))
     = ([ascii_bytes (lit "HTTP/1.1 200 OK" ++ crlf
                      ++ get_http_header demo_world 16 [])
         ++ ascii_bytes (lit "4503599627370496")], Ok 200%Z).
Proof. repeat split; vm_compute; reflexivity. Qed.

(** Larger quotients come out in scientific notation, and one beyond
    the range of a double raises [OverflowError] before anything is sent. *)
Lemma area_in_scientific_notation :
  calculate_area demo_world
    (area_request (lit "calculate-area") (lit "20000000000000000") (lit "1"))
  = ([ascii_bytes (lit "HTTP/1.1 200 OK" ++ crlf ++ get_http_header demo_world 5 [])
      ++ ascii_bytes (lit "1e+16")], Ok 200%Z).
Proof. vm_compute. reflexivity. Qed.

Lemma area_overflow_raises :
  calculate_area demo_world
    (area_request (lit "calculate-area") (49%N :: repeat 48%N 310) (lit "1"))
  = ([], Raise OverflowError).
Proof. vm_compute. reflexivity. Qed.

(** ** Values that are not numbers *)

(** A value that [isnumeric] rejects is answered with 500. *)
Lemma non_numeric_value_is_500 w request :
  let parameters := split (lit "&") (item_last (split (lit "?") request)) in
  let height := item_last (split (lit "=") (item parameters 0)) in
  let width := item_last (split (lit "=") (item parameters 1)) in
  length parameters = 2%nat ->
  isnumeric height = false \/ isnumeric width = false ->
  calculate_area w request
  = ([ascii_bytes (lit "HTTP/1.1 500 Internal Server Error" ++ crlf
                   ++ get_http_header w 37 [])
      ++ ascii_bytes (lit "Not numeric value for height or width")], Ok 500%Z).
Proof.
  cbv zeta. intros Hlen Hnum. unfold calculate_area. rewrite Hlen.
  cbn [Nat.eqb negb].
  assert (negb (isnumeric (item_last (split (lit "=")
            (item (split (lit "&") (item_last (split (lit "?") request))) 0))))
          || negb (isnumeric (item_last (split (lit "=")
            (item (split (lit "&") (item_last (split (lit "?") request))) 1))))
          = true) as ->.
  { destruct Hnum as [-> | ->]; [reflexivity|apply orb_true_r]. }
  now rewrite internal_server_error_response.
Qed.

(** After a response the connection loop reads the next request. *)
Lemma handle_client_continues w client_request resource out code rest :
  validate_http_request client_request = (true, resource) ->
  handle_client_request w resource = (out, Ok code) ->
  code <> CLOSE_SERVER_STATUS_CODE ->
  handle_client (Recv w client_request :: rest)
  = (out ++ sent (handle_client rest), returned (handle_client rest)).
Proof.
  intros Hv Hr Hc. cbn [handle_client]. rewrite Hv, Hr. cbn [io_bind].
  destruct (Z.eqb_spec code CLOSE_SERVER_STATUS_CODE); [congruence|].
  now destruct (handle_client rest).
Qed.

(** C5 (the code departs from the claim).  The value [²] (U+00B2, in
    UTF-8 the bytes C2 B2) is not a string of decimal digits, yet
    [isnumeric] accepts it and [int] then raises [ValueError]: no 500
    response is sent, and the exception leaves [handle_client], so the
    request after it on the same connection is never served. *)
Theorem superscript_two_escapes_the_check :
  let height := [178%N] in
  let resource := lit "/calculate-area?height=" ++ height ++ lit "&width=2" in
  let client_request := lit "GET " ++ resource ++ lit " HTTP/1.1" ++ crlf ++ crlf in
  all_digits height = false
  /\ encode height = Ok [xc2; xb2]
  /\ isnumeric height = true
  /\ int_of_str height = Raise ValueError
  /\ validate_http_request client_request = (true, resource)
  /\ handle_client_request demo_world resource = ([], Raise ValueError)
  /\ handle_client [Recv demo_world client_request;
                    Recv demo_world (lit "GET / HTTP/1.1" ++ crlf ++ crlf)]
     = ([], Raise ValueError).
Proof. repeat split; vm_compute; reflexivity. Qed.

(** ** The specification's examples, from the request to the bytes sent *)

Lemma computed_endpoint_end_to_end :
  handle_client
    [Recv demo_world
       (lit "GET /calculate-area?height=10&width=4 HTTP/1.1" ++ crlf ++ crlf);
     Recv demo_world
       (lit "GET /calculate-area?height=3&width=3&depth=1 HTTP/1.1" ++ crlf ++ crlf);
     Recv demo_world
       (lit "GET /calculate-area?height=a&width=2 HTTP/1.1" ++ crlf ++ crlf)]
  = ([ascii_bytes (lit "HTTP/1.1 200 OK" ++ crlf ++ get_http_header demo_world 2 [])
      ++ ascii_bytes (lit "20");
      ascii_bytes (lit "HTTP/1.1 500 Internal Server Error" ++ crlf
                   ++ get_http_header demo_world 42 [])
      ++ ascii_bytes (lit "Many or less parameters, expected 2, got 3");
      ascii_bytes (lit "HTTP/1.1 500 Internal Server Error" ++ crlf
                   ++ get_http_header demo_world 37 [])
      ++ ascii_bytes (lit "Not numeric value for height or width")],
     Ok None).
Proof. vm_compute. reflexivity. Qed.

(* ================================================================== *)
(** * Further properties of the parser *)
(* ================================================================== *)

Lemma no_space_rev s : no_space (rev s) = no_space s.
Proof.
  unfold no_space. apply eq_true_iff_eq. rewrite !forallb_forall.
  split; intros H x Hx; apply H; [apply -> in_rev|apply <- in_rev]; assumption.
Qed.

(** Every token of [split()] is a non-empty run without white space. *)
Lemma split_ws_aux_tokens s : forall cur,
  no_space cur = true ->
  Forall (fun t => t <> [] /\ no_space t = true) (split_ws_aux cur s).
Proof.
  induction s as [|c s IH]; intros cur Hcur; cbn [split_ws_aux].
  - destruct cur as [|x cur]; constructor; [|constructor].
    split; [|now rewrite no_space_rev].
    intros E. apply (f_equal (@length _)) in E.
    rewrite length_rev in E. discriminate.
  - destruct (isspace c) eqn:Hc.
    + destruct cur as [|x cur]; [now apply IH|].
      constructor; [|now apply IH].
      split; [|now rewrite no_space_rev].
      intros E. apply (f_equal (@length _)) in E.
      rewrite length_rev in E. discriminate.
    + apply IH. unfold no_space in *. cbn [forallb]. now rewrite Hc.
Qed.

(** The target of an accepted request is a token: it is not empty and
    contains no white space. *)
Theorem accepted_target_is_a_token (request : str) :
  fst (validate_http_request request) = true ->
  snd (validate_http_request request) <> []
  /\ no_space (snd (validate_http_request request)) = true.
Proof.
  unfold validate_http_request.
  destruct (startswith (lit "GET") _); [|discriminate].
  destruct (Nat.eqb_spec (length (split_ws (item (split crlf request) 0))) 3)
    as [Hlen|]; [|discriminate].
  destruct (contains (lit "HTTP") _); [|discriminate].
  intros _. cbn [negb snd].
  pose proof (split_ws_aux_tokens (item (split crlf request) 0) [] eq_refl) as Hall.
  fold (split_ws (item (split crlf request) 0)) in Hall.
  rewrite List.Forall_forall in Hall. apply Hall.
  unfold item in *. apply nth_In. rewrite Hlen. lia.
Qed.

Lemma accepted_target_is_a_token_witness :
  fst (validate_http_request (lit "GET /index.html HTTP/1.1" ++ crlf ++ crlf)) = true
  /\ snd (validate_http_request (lit "GET /index.html HTTP/1.1" ++ crlf ++ crlf)) <> []
  /\ no_space (snd (validate_http_request
                      (lit "GET /index.html HTTP/1.1" ++ crlf ++ crlf))) = true.
Proof.
  split; [reflexivity|].
  apply (accepted_target_is_a_token (lit "GET /index.html HTTP/1.1" ++ crlf ++ crlf)).
  reflexivity.
Defined.

(** Only the first line counts: what follows the first line end does
    not change the verdict nor the target. *)
Theorem only_the_first_line_is_examined (line rest : str) :
  lacks 13%N line = true ->
  validate_http_request (line ++ crlf ++ rest) = validate_http_request line.
Proof.
  intros H. unfold validate_http_request.
  replace (item (split crlf (line ++ crlf ++ rest)) 0) with line
    by (symmetry; exact (first_line_crlf line rest H)).
  replace (item (split crlf line) 0) with line
    by (symmetry; exact (first_line_alone line H)).
  reflexivity.
Qed.

Lemma only_the_first_line_is_examined_witness :
  lacks 13%N (lit "GET /home HTTP/1.1") = true
  /\ validate_http_request
       (lit "GET /home HTTP/1.1" ++ crlf ++ lit "Host: localhost" ++ crlf ++ crlf)
     = validate_http_request (lit "GET /home HTTP/1.1").
Proof.
  split; [reflexivity|].
  apply (only_the_first_line_is_examined (lit "GET /home HTTP/1.1")).
  reflexivity.
Defined.

Lemma split_ws_aux_head s : forall cur,
  cur <> [] ->
  exists t l, split_ws_aux cur s = (rev cur ++ t) :: l.
Proof.
  induction s as [|c s IH]; intros cur Hcur; cbn [split_ws_aux].
  - destruct cur; [congruence|]. exists [], []. now rewrite app_nil_r.
  - destruct (isspace c).
    + destruct cur; [congruence|]. eexists [], _. now rewrite app_nil_r.
    + destruct (IH (c :: cur) ltac:(discriminate)) as (t & l & ->).
      exists (c :: t), l. cbn [rev]. now rewrite <- app_assoc.
Qed.

(** The method of an accepted request begins with the letters [GET]
    and nothing precedes it on the line. *)
Theorem accepted_method_begins_with_get (request : str) :
  fst (validate_http_request request) = true ->
  let first_line := item (split crlf request) 0 in
  startswith (lit "GET") first_line = true
  /\ exists t, item (split_ws first_line) 0 = lit "GET" ++ t.
Proof.
  intros H. apply validate_http_request_accepts in H as (Hget & _ & _).
  cbv zeta in *. split; [assumption|].
  apply startswith_spec in Hget as [rest ->].
  destruct (split_ws_aux_head rest [84; 69; 71]%N ltac:(discriminate))
    as (t & l & Hsplit).
  exists t. unfold split_ws.
  change (split_ws_aux [] (lit "GET" ++ rest))
    with (split_ws_aux [84; 69; 71]%N rest).
  now rewrite Hsplit.
Qed.

Lemma accepted_method_begins_with_get_witness :
  fst (validate_http_request (lit "GETX / HTTP/1.1")) = true
  /\ exists t, item (split_ws (lit "GETX / HTTP/1.1")) 0 = lit "GET" ++ t.
Proof.
  split; [reflexivity|].
  apply (accepted_method_begins_with_get (lit "GETX / HTTP/1.1")).
  reflexivity.
Defined.

(* ================================================================== *)
(** * Further properties of the router *)
(* ================================================================== *)

(** A request is answered at most once, the status line sent is that of
    the code returned, and nothing has been sent when the router stops
    the server or raises. *)
Theorem one_response_or_none (w : World) (resource : str) :
  handle_client_request w resource = ([], Ok CLOSE_SERVER_STATUS_CODE)
  \/ (exists code rest,
        In code [200; 404; 302; 500]%Z
        /\ handle_client_request w resource
           = ([ascii_bytes (status_line code) ++ rest], Ok code))
  \/ (exists e, handle_client_request w resource = ([], Raise e)).
Proof.
  destruct (handle_client_request_cases w resource) as [[_ E] | [_ H]];
    [now left|right].
  destruct H as [(p & code & E & (location & tail & body & Hc & _ & _ & Hp)) | (e & E)];
    [left|right; now exists e].
  exists code. eexists. split; [exact Hc|].
  rewrite E, Hp, ascii_bytes_app, <- app_assoc. reflexivity.
Qed.

(** ** Slashes around the target *)

Lemma lstrip_by_dropped drop (a s : str) :
  forallb drop a = true -> lstrip_by drop (a ++ s) = lstrip_by drop s.
Proof.
  induction a as [|c a IH]; [reflexivity|]. cbn.
  intros H. apply andb_true_iff in H as [-> Ha]. now apply IH.
Qed.

Lemma lstrip_by_kept drop (s b : str) :
  lstrip_by drop s <> [] -> lstrip_by drop (s ++ b) = lstrip_by drop s ++ b.
Proof.
  induction s as [|c s IH]; [intros H; now contradiction H|]. cbn.
  destruct (drop c); [exact IH|reflexivity].
Qed.

Lemma rstrip_by_dropped drop (s b : str) :
  forallb drop b = true -> rstrip_by drop (s ++ b) = rstrip_by drop s.
Proof.
  intros H. unfold rstrip_by. rewrite rev_app_distr, lstrip_by_dropped; [reflexivity|].
  rewrite forallb_forall in *. intros x Hx. apply H. now apply in_rev.
Qed.

Lemma lstrip_by_all drop (s : str) : forallb drop s = true -> lstrip_by drop s = [].
Proof.
  intros H. rewrite <- (app_nil_r s). now rewrite lstrip_by_dropped.
Qed.

Lemma lstrip_by_nil_all drop (s : str) : lstrip_by drop s = [] -> forallb drop s = true.
Proof.
  induction s as [|c s IH]; [reflexivity|]. cbn.
  destruct (drop c); [exact IH|discriminate].
Qed.

(** [strip] does not see what it would remove anyway. *)
Lemma strip_by_padded drop (a s b : str) :
  forallb drop a = true -> forallb drop b = true ->
  strip_by drop (a ++ s ++ b) = strip_by drop s.
Proof.
  intros Ha Hb. unfold strip_by. rewrite lstrip_by_dropped by assumption.
  destruct (lstrip_by drop s) as [|c t] eqn:E.
  - rewrite lstrip_by_all; [reflexivity|].
    rewrite forallb_app, Hb, (lstrip_by_nil_all drop s E). reflexivity.
  - rewrite lstrip_by_kept by (rewrite E; discriminate).
    rewrite E. now apply rstrip_by_dropped.
Qed.

Lemma forallb_slashes n : forallb (mem_char (lit "/")) (repeat 47%N n) = true.
Proof. induction n as [|n IH]; [reflexivity|]. cbn [repeat forallb]. now rewrite IH. Qed.

(** Any number of slashes before and after a target that is neither
    empty nor [/] changes nothing. *)
Theorem slashes_around_target_are_ignored (w : World) (resource : str) (a b : nat) :
  resource <> [] -> resource <> lit "/" ->
  handle_client_request w (repeat 47%N a ++ resource ++ repeat 47%N b)
  = handle_client_request w resource.
Proof.
  intros Hne Hns.
  assert (Hurl : requested_url (repeat 47%N a ++ resource ++ repeat 47%N b)
                 = requested_url resource).
  { unfold requested_url.
    assert (Hpad : forall p, p = [] \/ p = lit "/" ->
                   repeat 47%N a ++ resource ++ repeat 47%N b <> p).
    { intros p Hp E. pose proof (f_equal (@length _) E) as El.
      rewrite !length_app, !repeat_length in El.
      assert (Hlen : (1 <= length resource)%nat)
        by (destruct resource; [congruence|cbn; lia]).
      destruct Hp as [-> | ->]; [cbn in El; lia|].
      cbn [lit List.map list_ascii_of_string length] in El.
      assert (a = 0%nat /\ b = 0%nat) as [-> ->] by lia.
      cbn [repeat app] in E. rewrite app_nil_r in E. congruence. }
    apply str_eqb_neq in Hne, Hns. rewrite Hne, Hns. cbn [orb].
    assert (str_eqb (repeat 47%N a ++ resource ++ repeat 47%N b) [] = false) as ->
      by (apply str_eqb_neq, Hpad; now left).
    assert (str_eqb (repeat 47%N a ++ resource ++ repeat 47%N b) (lit "/") = false) as ->
      by (apply str_eqb_neq, Hpad; now right).
    cbn [orb]. apply strip_by_padded; apply forallb_slashes. }
  unfold handle_client_request. now rewrite Hurl.
Qed.

Lemma slashes_around_target_are_ignored_witness :
  lit "home" <> [] /\ lit "home" <> lit "/"
  /\ handle_client_request demo_world (lit "//home/")
     = handle_client_request demo_world (lit "home").
Proof.
  split; [discriminate|]. split; [discriminate|].
  apply (slashes_around_target_are_ignored demo_world (lit "home") 2 1); discriminate.
Defined.

(** ** Static files *)

Lemma webroot_url_nonempty url : webroot_url url <> [].
Proof.
  unfold webroot_url. destruct (startswith (lit "webroot/") url) eqn:E.
  - apply startswith_spec in E as [t ->]. discriminate.
  - discriminate.
Qed.

Lemma not_found_bytes w : not_found w = ([response_404 w], Ok 404%Z).
Proof.
  rewrite not_found_response, get_http_header_no_url, <- ascii_bytes_app.
  unfold response_404. now rewrite <- !app_assoc.
Qed.

Lemma route_to_file (w : World) (resource : str) :
  let url := webroot_url (requested_url resource) in
  endswith (lit "exit") (requested_url resource) = false ->
  REDIRECTION_DICTIONARY !! url = None ->
  contains (lit "calculate-area") (item_last (split (lit "/") url)) = false ->
  handle_client_request w resource
  = if isfile w url then
      match read_file w url with
      | Ok data =>
          ([ascii_bytes (lit "HTTP/1.1 200 OK" ++ crlf
                         ++ get_http_header w (len data) url) ++ data], Ok 200%Z)
      | Raise e => ([], Raise e)
      end
    else ([response_404 w], Ok 404%Z).
Proof.
  intros url Hexit Hkey Hcalc. unfold handle_client_request.
  fold url. rewrite Hexit. unfold dict_mem. rewrite Hkey, Hcalc.
  destruct (isfile w url); cbn [negb].
  - rewrite ok_response_file by apply webroot_url_nonempty.
    now destruct (read_file w url).
  - apply not_found_bytes.
Qed.

(** A target that is not an exit request, not a redirection and not the
    computed endpoint is looked up under the web root, query string and
    dots included: when it is a file its bytes are the body of a 200
    response whose [Content-Length] is their number, when reading it
    fails the exception is raised and nothing is sent, and when it is
    not a file the fixed 404 response is sent. *)
Theorem static_route (w : World) (resource : str) :
  let url := webroot_url (requested_url resource) in
  endswith (lit "exit") (requested_url resource) = false ->
  REDIRECTION_DICTIONARY !! url = None ->
  contains (lit "calculate-area") (item_last (split (lit "/") url)) = false ->
  handle_client_request w resource
  = if isfile w url then
      match read_file w url with
      | Ok data =>
          ([ascii_bytes (lit "HTTP/1.1 200 OK" ++ crlf
                         ++ get_http_header w (len data) url) ++ data], Ok 200%Z)
      | Raise e => ([], Raise e)
      end
    else ([response_404 w], Ok 404%Z).
Proof. exact (route_to_file w resource). Qed.

Lemma static_route_witness :
  endswith (lit "exit") (requested_url (lit "/css/site.css?v=2")) = false
  /\ handle_client_request demo_world (lit "/css/site.css?v=2")
     = ([response_404 demo_world], Ok 404%Z).
Proof.
  split; [reflexivity|].
  exact (static_route demo_world (lit "/css/site.css?v=2") eq_refl eq_refl eq_refl).
Defined.

(** The header block is the two lines every response has, followed by
    what the file type adds. *)
Lemma get_http_header_cases w n url :
  get_http_header w n url
  = header_lines w n
    ++ (let file_type :=
          if str_eqb url [] then lit "html" else item_last (split (lit ".") url) in
        if str_eqb file_type (lit "html") || str_eqb file_type (lit "txt") then
          lit "Content-Type: text/html" ++ crlf ++ crlf
        else if str_eqb file_type (lit "css") then
          lit "Content-Type: text/css" ++ crlf ++ crlf
        else if str_eqb file_type (lit "js") then
          lit "Content-Type: text/javascript" ++ crlf ++ crlf
        else if str_eqb file_type (lit "jpg") then
          lit "Content-Type: image/jpeg" ++ crlf ++ accept_ranges
        else if str_eqb file_type (lit "png") then
          lit "Content-Type: image/png" ++ crlf ++ accept_ranges
        else if str_eqb file_type (lit "ico") then
          lit "Content-Type: image/icon" ++ crlf ++ accept_ranges
        else if str_eqb file_type (lit "gif") then
          lit "Content-Type: image/gif" ++ crlf ++ accept_ranges
        else []).
Proof.
  unfold get_http_header, header_lines. cbv zeta.
  set (ft := if str_eqb url [] then _ else _).
  repeat match goal with
         | |- context [if ?b then _ else _] => destruct b
         end;
    rewrite <- ?app_assoc, ?app_nil_r; reflexivity.
Qed.

(** Evaluate what a closed file name adds to the header. *)
Ltac eval_file_type :=
  rewrite get_http_header_cases;
  match goal with
  | |- context [header_lines ?w ?n ++ ?t] =>
      let v := eval vm_compute in t in change t with v
  end.

Lemma get_http_header_index w n :
  get_http_header w n (lit "webroot/index.html")
  = header_lines w n ++ lit "Content-Type: text/html" ++ crlf ++ crlf.
Proof. eval_file_type. reflexivity. Qed.

(** The empty target and [/] both ask for the home document
    [webroot/index.html], served as html. *)
Theorem home_document (w : World) :
  handle_client_request w [] = handle_client_request w (lit "/")
  /\ handle_client_request w (lit "/")
     = if isfile w (lit "webroot/index.html") then
         match read_file w (lit "webroot/index.html") with
         | Ok data =>
             ([ascii_bytes (lit "HTTP/1.1 200 OK" ++ crlf ++ header_lines w (len data)
                            ++ lit "Content-Type: text/html" ++ crlf ++ crlf)
               ++ data], Ok 200%Z)
         | Raise e => ([], Raise e)
         end
       else ([response_404 w], Ok 404%Z).
Proof.
  split; [reflexivity|].
  rewrite (route_to_file w (lit "/") eq_refl eq_refl eq_refl).
  change (webroot_url (requested_url (lit "/"))) with (lit "webroot/index.html").
  destruct (isfile w _); [|reflexivity].
  destruct (read_file w _); [|reflexivity].
  now rewrite get_http_header_index.
Qed.

(** A target of two or more slashes is not the home document: it asks
    for the web root directory itself. *)
Theorem slashes_only_target_is_the_web_root (w : World) (n : nat) :
  (2 <= n)%nat ->
  requested_url (repeat 47%N n) = []
  /\ handle_client_request w (repeat 47%N n)
     = if isfile w (lit "webroot/") then ok w [] (lit "webroot/") else not_found w.
Proof.
  intros Hn.
  assert (Hurl : requested_url (repeat 47%N n) = []).
  { unfold requested_url.
    destruct n as [|[|n]]; [lia|lia|]. cbn [repeat str_eqb lit List.map
      list_ascii_of_string N_of_ascii N.eqb Pos.eqb andb orb].
    change (47%N :: 47%N :: repeat 47%N n) with (repeat 47%N (S (S n))).
    unfold strip, strip_by. rewrite lstrip_by_all by apply forallb_slashes.
    reflexivity. }
  split; [assumption|].
  unfold handle_client_request. rewrite Hurl. cbn -[not_found ok].
  now destruct (isfile w _).
Qed.

Lemma slashes_only_target_is_the_web_root_witness :
  (2 <= 2)%nat
  /\ handle_client_request demo_world (lit "//") = ([response_404 demo_world], Ok 404%Z).
Proof.
  split; [lia|].
  change (lit "//") with (repeat 47%N 2).
  rewrite (proj2 (slashes_only_target_is_the_web_root demo_world 2 ltac:(lia))).
  reflexivity.
Defined.

(** ** Redirections *)

(** What [moved_temporarily] does with any [url]: [KeyError] when it is
    not a key of the table; the 404 response when the target is not a
    file; the exception of the read when reading fails; otherwise a 302
    response with the [Location] of the target, the header of the target
    and the bytes of the target as body. *)
Theorem moved_temporarily_outcomes (w : World) (url : str) :
  moved_temporarily w url
  = match REDIRECTION_DICTIONARY !! url with
    | None => ([], Raise KeyError)
    | Some target =>
        if isfile w target then
          match read_file w target with
          | Ok data =>
              ([ascii_bytes (lit "HTTP/1.1 302 Moved Temporarily" ++ crlf
                             ++ lit "Location: http://" ++ target ++ crlf
                             ++ get_http_header w (len data) target) ++ data],
               Ok 302%Z)
          | Raise e => ([], Raise e)
          end
        else ([response_404 w], Ok 404%Z)
    end.
Proof.
  destruct (REDIRECTION_DICTIONARY !! url) as [target|] eqn:Hk.
  - destruct (isfile w target) eqn:Hf.
    + rewrite (moved_temporarily_response _ _ _ Hk Hf).
      destruct (read_file w target); [|reflexivity].
      now rewrite <- !app_assoc.
    + rewrite (moved_temporarily_missing _ _ _ Hk Hf). apply not_found_bytes.
  - unfold moved_temporarily, dict_item at 1. now rewrite Hk.
Qed.

(** Routing a key of the table whose target is a readable file sends a
    302 response that names the target in [Location] and also carries
    the target's bytes as an html body. *)
Theorem redirect_carries_target_body (w : World) (k target : str) (data : bytes) :
  REDIRECTION_DICTIONARY !! k = Some target ->
  isfile w target = true ->
  read_file w target = Ok data ->
  handle_client_request w k
  = ([ascii_bytes (lit "HTTP/1.1 302 Moved Temporarily" ++ crlf
                   ++ lit "Location: http://webroot/index.html" ++ crlf
                   ++ header_lines w (len data)
                   ++ lit "Content-Type: text/html" ++ crlf ++ crlf)
      ++ data], Ok 302%Z).
Proof.
  intros Hk Hf Hr.
  destruct (redirection_entries _ _ Hk) as [-> Hkeys].
  assert (Hroute : handle_client_request w k
                   = moved_temporarily w (webroot_url (requested_url k))
                   /\ REDIRECTION_DICTIONARY !! webroot_url (requested_url k)
                      = Some (lit "webroot/index.html")).
  { destruct Hkeys as [-> | [-> | [-> | ->]]]; split; reflexivity. }
  destruct Hroute as [-> Hurl].
  rewrite (moved_temporarily_response _ _ _ Hurl Hf), Hr.
  rewrite get_http_header_index. now rewrite <- !app_assoc.
Qed.

Lemma redirect_carries_target_body_witness :
  REDIRECTION_DICTIONARY !! lit "home.html" = Some (lit "webroot/index.html")
  /\ isfile demo_world (lit "webroot/index.html") = true
  /\ read_file demo_world (lit "webroot/index.html") = Ok [x68; x69]
  /\ returned (handle_client_request demo_world (lit "home.html")) = Ok 302%Z.
Proof.
  repeat (split; [reflexivity|]).
  rewrite (redirect_carries_target_body demo_world (lit "home.html")
             (lit "webroot/index.html") [x68; x69]); reflexivity.
Defined.

(** ** The web root prefix *)

Lemma strip_by_fixed drop (s : str) :
  match s with [] => True | c :: _ => drop c = false end ->
  match rev s with [] => True | c :: _ => drop c = false end ->
  strip_by drop s = s.
Proof.
  intros Hhd Hlast. unfold strip_by, rstrip_by.
  assert (Hl : forall t : str,
            match t with [] => True | c :: _ => drop c = false end ->
            lstrip_by drop t = t).
  { intros [|c t] H; [reflexivity|]. cbn. now rewrite H. }
  rewrite (Hl s Hhd), (Hl (rev s) Hlast). apply rev_involutive.
Qed.

Lemma startswith_longer (p a : str) :
  (length a < length p)%nat -> startswith p a = false.
Proof.
  revert a. induction p as [|x p IH]; intros [|y a] H; cbn in *;
    try lia; try reflexivity.
  rewrite IH by lia. apply andb_false_r.
Qed.

Lemma startswith_within (p a b : str) :
  (length p <= length a)%nat -> startswith p (a ++ b) = startswith p a.
Proof.
  revert a. induction p as [|x p IH]; intros [|y a] H; cbn in *;
    try lia; try reflexivity.
  now rewrite IH by lia.
Qed.

Lemma endswith_exit_under_webroot (u : str) :
  endswith (lit "exit") (lit "webroot/" ++ u) = endswith (lit "exit") u.
Proof.
  unfold endswith. rewrite rev_app_distr.
  destruct (Nat.le_gt_cases 4 (length u)) as [Hlong|Hshort].
  - apply startswith_within. rewrite !length_rev. exact Hlong.
  - rewrite (startswith_longer _ (rev u)) by (rewrite !length_rev; exact Hshort).
    destruct u as [|a [|b [|c [|d u]]]];
      [| | | |cbn [length] in Hshort; lia]; cbn;
      now rewrite ?andb_false_r.
Qed.

(** A path may be asked for with or without the web root prefix: for a
    path without slashes at its ends that does not begin with
    [webroot/], both forms are answered alike. *)
Theorem webroot_prefix_is_optional (w : World) (u : str) :
  u <> [] ->
  startswith (lit "/") u = false -> endswith (lit "/") u = false ->
  startswith (lit "webroot/") u = false ->
  handle_client_request w (lit "webroot/" ++ u) = handle_client_request w u.
Proof.
  intros Hne Hhd Hlast Hweb.
  assert (Hslash : forall c, (47 =? c)%N = false -> mem_char (lit "/") c = false).
  { intros c H. change (mem_char (lit "/") c) with ((c =? 47)%N || false).
    now rewrite N.eqb_sym, H. }
  assert (Hrev : exists d r, rev u = d :: r /\ (47 =? d)%N = false).
  { unfold endswith in Hlast. destruct (rev u) as [|d r] eqn:E.
    - apply (f_equal (@rev _)) in E. rewrite rev_involutive in E. now subst u.
    - exists d, r. split; [reflexivity|]. cbn in Hlast.
      now rewrite andb_true_r in Hlast. }
  destruct Hrev as (d & r & Hr & Hd).
  assert (Hu : requested_url u = u).
  { unfold requested_url. destruct u as [|c u]; [congruence|].
    cbn in Hhd. rewrite andb_true_r in Hhd.
    assert (str_eqb (c :: u) (lit "/") = false) as ->.
    { cbn. rewrite N.eqb_sym, Hhd. reflexivity. }
    cbn [str_eqb orb]. apply strip_by_fixed; [now apply Hslash|].
    rewrite Hr. now apply Hslash. }
  assert (Hwu : requested_url (lit "webroot/" ++ u) = lit "webroot/" ++ u).
  { unfold requested_url.
    change (str_eqb (lit "webroot/" ++ u) []) with false.
    assert (str_eqb (lit "webroot/" ++ u) (lit "/") = false) as -> by reflexivity.
    cbn [orb]. apply strip_by_fixed; [reflexivity|].
    rewrite rev_app_distr, Hr. now apply Hslash. }
  unfold handle_client_request.
  rewrite Hu, Hwu, endswith_exit_under_webroot.
  unfold webroot_url. now rewrite startswith_app, Hweb.
Qed.

Lemma webroot_prefix_is_optional_witness :
  lit "css/site.css" <> []
  /\ handle_client_request demo_world (lit "webroot/css/site.css")
     = handle_client_request demo_world (lit "css/site.css").
Proof.
  split; [discriminate|].
  exact (webroot_prefix_is_optional demo_world (lit "css/site.css")
           ltac:(discriminate) eq_refl eq_refl eq_refl).
Defined.

(* ================================================================== *)
(** * Further properties of the header block *)
(* ================================================================== *)

Lemma str_eqb_app_cons_nil (a : str) c (b : str) : str_eqb (a ++ c :: b) [] = false.
Proof. now destruct a. Qed.

(** The header is chosen by the text after the last dot alone. *)
Lemma header_by_extension w n (stem ext : str) :
  lacks 46%N ext = true ->
  get_http_header w n (stem ++ 46%N :: ext) = get_http_header w n (46%N :: ext).
Proof.
  intros H. unfold get_http_header.
  rewrite str_eqb_app_cons_nil. change (str_eqb (46%N :: ext) []) with false.
  cbv iota.
  replace (item_last (split (lit ".") (stem ++ 46%N :: ext))) with ext
    by (symmetry; exact (split1_last 46%N stem ext H)).
  replace (item_last (split (lit ".") (46%N :: ext))) with ext
    by (symmetry; exact (split1_last 46%N [] ext H)).
  reflexivity.
Qed.

(** The content type of every file name with a known extension, whatever
    precedes the last dot: text types end the header block with a blank
    line, image types add [Accept-Ranges: bytes] before it. *)
Theorem content_type_by_extension (w : World) (n : Z) (stem : str) :
  get_http_header w n (stem ++ lit ".html")
  = header_lines w n ++ lit "Content-Type: text/html" ++ crlf ++ crlf
  /\ get_http_header w n (stem ++ lit ".txt")
     = header_lines w n ++ lit "Content-Type: text/html" ++ crlf ++ crlf
  /\ get_http_header w n (stem ++ lit ".css")
     = header_lines w n ++ lit "Content-Type: text/css" ++ crlf ++ crlf
  /\ get_http_header w n (stem ++ lit ".js")
     = header_lines w n ++ lit "Content-Type: text/javascript" ++ crlf ++ crlf
  /\ get_http_header w n (stem ++ lit ".jpg")
     = header_lines w n ++ lit "Content-Type: image/jpeg" ++ crlf
       ++ lit "Accept-Ranges: bytes" ++ crlf ++ crlf
  /\ get_http_header w n (stem ++ lit ".png")
     = header_lines w n ++ lit "Content-Type: image/png" ++ crlf
       ++ lit "Accept-Ranges: bytes" ++ crlf ++ crlf
  /\ get_http_header w n (stem ++ lit ".ico")
     = header_lines w n ++ lit "Content-Type: image/icon" ++ crlf
       ++ lit "Accept-Ranges: bytes" ++ crlf ++ crlf
  /\ get_http_header w n (stem ++ lit ".gif")
     = header_lines w n ++ lit "Content-Type: image/gif" ++ crlf
       ++ lit "Accept-Ranges: bytes" ++ crlf ++ crlf.
Proof.
  assert (Hext : forall ext, lacks 46%N ext = true ->
            get_http_header w n (stem ++ lit "." ++ ext)
            = get_http_header w n (lit "." ++ ext)).
  { intros ext H. apply (header_by_extension w n stem ext H). }
  repeat apply conj;
    match goal with
    | |- get_http_header _ _ (_ ++ lit ?e) = _ =>
        let x := eval vm_compute in (tl (lit e)) in
        change (lit e) with (lit "." ++ x);
        rewrite (Hext x eq_refl)
    end;
    eval_file_type; reflexivity.
Qed.

(** A name whose text after the last dot (the whole name when it has no
    dot) is not a known file type gets no [Content-Type] line, and the
    header block then ends without a blank line. *)
Theorem unknown_extension_has_no_content_type (w : World) (n : Z) (url : str) :
  url <> [] ->
  ~ In (item_last (split (lit ".") url)) known_file_types ->
  get_http_header w n url = header_lines w n.
Proof.
  intros Hne Hnot. unfold get_http_header. fold (header_lines w n).
  apply str_eqb_neq in Hne. rewrite Hne.
  set (ft := item_last (split (lit ".") url)) in *.
  assert (Hno : forall t, In t known_file_types -> str_eqb ft t = false).
  { intros t Ht. apply str_eqb_neq. intros ->. now apply Hnot. }
  rewrite !Hno by (cbn; tauto). reflexivity.
Qed.

Lemma unknown_extension_has_no_content_type_witness :
  lit "webroot/report.pdf" <> []
  /\ get_http_header demo_world 7 (lit "webroot/report.pdf") = header_lines demo_world 7.
Proof.
  split; [discriminate|].
  apply (unknown_extension_has_no_content_type demo_world 7 (lit "webroot/report.pdf")).
  - discriminate.
  - vm_compute. intros H. repeat (destruct H as [H|H]; [discriminate H|]). exact H.
Defined.

(* ================================================================== *)
(** * Further properties of the computed endpoint *)
(* ================================================================== *)

Lemma lacks_cons c x (s : str) : lacks c (x :: s) = negb (c =? x)%N && lacks c s.
Proof. reflexivity. Qed.

Lemma query_request_parameters (name key1 height key2 width : str) :
  lacks 63%N key1 = true -> lacks 38%N key1 = true ->
  lacks 63%N key2 = true -> lacks 38%N key2 = true ->
  all_digits height = true -> all_digits width = true ->
  let request := query_request name key1 height key2 width in
  let parameters := split (lit "&") (item_last (split (lit "?") request)) in
  length parameters = 2%nat
  /\ item_last (split (lit "=") (item parameters 0)) = height
  /\ item_last (split (lit "=") (item parameters 1)) = width.
Proof.
  intros Hq1 Ha1 Hq2 Ha2 Hh Hw.
  apply all_digits_forall in Hh as [_ Hh], Hw as [_ Hw]. cbv zeta.
  assert (Hq : item_last (split (lit "?") (query_request name key1 height key2 width))
               = (key1 ++ 61%N :: height) ++ 38%N :: key2 ++ 61%N :: width).
  { rewrite <- app_assoc.
    apply (split1_last 63%N name
             (key1 ++ 61%N :: height ++ 38%N :: key2 ++ 61%N :: width)).
    repeat (rewrite lacks_app || rewrite lacks_cons).
    rewrite Hq1, Hq2, (digits_lack 63%N height), (digits_lack 63%N width)
      by (assumption || reflexivity).
    reflexivity. }
  rewrite Hq.
  assert (Ha : split (lit "&") ((key1 ++ 61%N :: height) ++ 38%N :: key2 ++ 61%N :: width)
               = [key1 ++ 61%N :: height; key2 ++ 61%N :: width]).
  { change (lit "&") with [38%N].
    rewrite split1_cons, split1_lacks; [reflexivity| |].
    - repeat (rewrite lacks_app || rewrite lacks_cons).
      rewrite Ha2, (digits_lack 38%N width) by (assumption || reflexivity).
      reflexivity.
    - repeat (rewrite lacks_app || rewrite lacks_cons).
      rewrite Ha1, (digits_lack 38%N height) by (assumption || reflexivity).
      reflexivity. }
  rewrite Ha. split; [reflexivity|]. cbn [item nth]. split.
  - apply (split1_last 61%N key1 height). now apply digits_lack.
  - apply (split1_last 61%N key2 width). now apply digits_lack.
Qed.

(** The answer of the computed endpoint depends on the product of its
    two values only: not on the names of the parameters, nor on the
    order of the values, nor on leading zeros, as long as no value has
    more than 4300 digits. *)
Theorem area_depends_on_the_product_only
    (w : World) (name key1 height key2 width name' key1' height' key2' width' : str) :
  lacks 63%N key1 = true -> lacks 38%N key1 = true ->
  lacks 63%N key2 = true -> lacks 38%N key2 = true ->
  lacks 63%N key1' = true -> lacks 38%N key1' = true ->
  lacks 63%N key2' = true -> lacks 38%N key2' = true ->
  all_digits height = true -> all_digits width = true ->
  all_digits height' = true -> all_digits width' = true ->
  (len height <= max_str_digits)%Z -> (len width <= max_str_digits)%Z ->
  (len height' <= max_str_digits)%Z -> (len width' <= max_str_digits)%Z ->
  (digits_value height * digits_value width
   = digits_value height' * digits_value width')%Z ->
  calculate_area w (query_request name key1 height key2 width)
  = calculate_area w (query_request name' key1' height' key2' width').
Proof.
  intros Hq1 Ha1 Hq2 Ha2 Hq1' Ha1' Hq2' Ha2' Hh Hw Hh' Hw' Hlh Hlw Hlh' Hlw' Hprod.
  destruct (query_request_parameters name key1 height key2 width
              Hq1 Ha1 Hq2 Ha2 Hh Hw) as (Hl & Hph & Hpw).
  destruct (query_request_parameters name' key1' height' key2' width'
              Hq1' Ha1' Hq2' Ha2' Hh' Hw') as (Hl' & Hph' & Hpw').
  cbv zeta in *. unfold calculate_area.
  rewrite Hl, Hl', Hph, Hpw, Hph', Hpw'. cbn [Nat.eqb negb].
  rewrite !isnumeric_digits by assumption. cbn [negb orb].
  rewrite !int_of_digits, !bind_lift_ok by assumption.
  now rewrite Hprod.
Qed.

Lemma area_depends_on_the_product_only_witness :
  (digits_value (lit "10") * digits_value (lit "4")
   = digits_value (lit "004") * digits_value (lit "10"))%Z
  /\ (len (lit "004") <= max_str_digits)%Z
  /\ calculate_area demo_world (lit "calculate-area?height=10&width=4")
     = calculate_area demo_world (lit "area?a=004&b==10").
Proof.
  assert (H2 : (len (lit "10") <= max_str_digits)%Z) by (vm_compute; discriminate).
  assert (H1 : (len (lit "4") <= max_str_digits)%Z) by (vm_compute; discriminate).
  assert (H3 : (len (lit "004") <= max_str_digits)%Z) by (vm_compute; discriminate).
  split; [reflexivity|]. split; [exact H3|].
  exact (area_depends_on_the_product_only demo_world
           (lit "calculate-area") (lit "height") (lit "10") (lit "width") (lit "4")
           (lit "area") (lit "a") (lit "004") (lit "b=") (lit "10")
           eq_refl eq_refl eq_refl eq_refl eq_refl eq_refl eq_refl eq_refl
           eq_refl eq_refl eq_refl eq_refl H2 H1 H3 H2 eq_refl).
Defined.

(** Any number of parameters other than two is answered with 500 and a
    message that names the number found; nothing is computed. *)
Theorem wrong_parameter_count_is_500 (w : World) (request : str) :
  let parameters := split (lit "&") (item_last (split (lit "?") request)) in
  let message :=
    lit "Many or less parameters, expected 2, got " ++ str_of_int (len parameters) in
  length parameters <> 2%nat ->
  calculate_area w request
  = ([ascii_bytes (lit "HTTP/1.1 500 Internal Server Error" ++ crlf
                   ++ header_lines w (len message)
                   ++ lit "Content-Type: text/html" ++ crlf ++ crlf)
      ++ ascii_bytes message], Ok 500%Z).
Proof.
  cbv zeta. intros Hlen. unfold calculate_area.
  apply Nat.eqb_neq in Hlen. rewrite Hlen. cbn [negb].
  rewrite internal_server_error_response
    by now rewrite is_ascii_app, is_ascii_str_of_int.
  now rewrite get_http_header_no_url.
Qed.

Lemma wrong_parameter_count_is_500_witness :
  length (split (lit "&") (item_last (split (lit "?") (lit "calculate-area")))) <> 2%nat
  /\ calculate_area demo_world (lit "calculate-area")
     = ([ascii_bytes (lit "HTTP/1.1 500 Internal Server Error" ++ crlf
                      ++ header_lines demo_world 42
                      ++ lit "Content-Type: text/html" ++ crlf ++ crlf)
         ++ ascii_bytes (lit "Many or less parameters, expected 2, got 1")],
        Ok 500%Z).
Proof.
  split; [discriminate|].
  apply (wrong_parameter_count_is_500 demo_world (lit "calculate-area")).
  discriminate.
Defined.

Lemma non_numeric_value_is_500_witness :
  length (split (lit "&") (item_last (split (lit "?")
            (lit "calculate-area?height=-3&width=2")))) = 2%nat
  /\ isnumeric (lit "-3") = false
  /\ returned (calculate_area demo_world (lit "calculate-area?height=-3&width=2"))
     = Ok 500%Z.
Proof.
  split; [reflexivity|]. split; [reflexivity|].
  rewrite (non_numeric_value_is_500 demo_world
             (lit "calculate-area?height=-3&width=2") eq_refl (or_introl eq_refl)).
  reflexivity.
Defined.

(** ** What can go wrong *)

Lemma is_ascii_firstn n s : is_ascii s = true -> is_ascii (firstn n s) = true.
Proof.
  intros H. rewrite <- (firstn_skipn n s), is_ascii_app in H.
  now apply andb_true_iff in H as [H _].
Qed.

Lemma is_ascii_skipn n s : is_ascii s = true -> is_ascii (skipn n s) = true.
Proof.
  intros H. rewrite <- (firstn_skipn n s), is_ascii_app in H.
  now apply andb_true_iff in H as [_ H].
Qed.

Lemma is_ascii_rstrip drop s : is_ascii s = true -> is_ascii (rstrip_by drop s) = true.
Proof.
  intros H. unfold rstrip_by.
  destruct (lstrip_by_split drop (rev s)) as (a & Hs & _ & _).
  set (t := lstrip_by drop (rev s)) in *.
  apply (f_equal (@rev _)) in Hs. rewrite rev_involutive, rev_app_distr in Hs.
  rewrite Hs, is_ascii_app in H. now apply andb_true_iff in H as [H _].
Qed.

Lemma is_ascii_zeros n : is_ascii (zeros n) = true.
Proof.
  unfold zeros. induction (Z.to_nat n) as [|k IH]; [reflexivity|].
  cbn [repeat is_ascii forallb]. exact IH.
Qed.

Lemma is_ascii_str_of_nonneg n : is_ascii (str_of_nonneg n) = true.
Proof. apply is_ascii_digits. Qed.

Lemma is_ascii_format_short ds decpt :
  is_ascii ds = true -> is_ascii (format_short ds decpt) = true.
Proof.
  intros H. unfold format_short.
  destruct (_ || _).
  - rewrite is_ascii_app, (is_ascii_firstn 1 ds H), is_ascii_app. cbn [andb].
    apply andb_true_iff. split.
    + destruct ds as [|c [|d r]]; [reflexivity|reflexivity|].
      unfold is_ascii in *. cbn [tl tail forallb] in *.
      now apply andb_true_iff in H as [_ H].
    + destruct (Z.abs (decpt - 1) <? 10)%Z, (decpt - 1 <? 0)%Z;
        rewrite is_ascii_app; cbn [is_ascii forallb];
        now rewrite ?is_ascii_str_of_nonneg.
  - destruct (decpt <=? 0)%Z.
    + now rewrite !is_ascii_app, is_ascii_zeros, H.
    + destruct (decpt <? _)%Z.
      * change (firstn (Z.to_nat decpt) ds ++ 46%N :: skipn (Z.to_nat decpt) ds)
          with (firstn (Z.to_nat decpt) ds ++ [46%N] ++ skipn (Z.to_nat decpt) ds).
        now rewrite !is_ascii_app, is_ascii_firstn, is_ascii_skipn.
      * now rewrite !is_ascii_app, is_ascii_zeros, H.
Qed.

(** The text of a float is ASCII. *)
Lemma is_ascii_float_str x : is_ascii (float_str x) = true.
Proof.
  unfold float_str. rewrite is_ascii_app.
  apply andb_true_iff. split; [now destruct (fneg x)|].
  destruct (fmant x =? 0)%Z; [reflexivity|].
  unfold shortest_digits. destruct (shortest_from _ _ _ _ _) as [c j].
  apply is_ascii_format_short, is_ascii_rstrip, is_ascii_str_of_nonneg.
Qed.

Lemma int_of_str_raises s e : int_of_str s = Raise e -> e = ValueError.
Proof.
  unfold int_of_str.
  destruct (match strip_by isspace s with
            | 43%N :: r => (false, r)
            | 45%N :: r => (true, r)
            | _ => (false, strip_by isspace s)
            end) as [neg body].
  destruct (int_digits body 0 false); [|now intros [= <-]].
  destruct (_ <? _)%Z; [now intros [= <-]|discriminate].
Qed.

Lemma halving_raises a e : int_truediv a 2 = Raise e -> e = OverflowError.
Proof.
  unfold int_truediv. change (2 =? 0)%Z with false. cbv iota.
  destruct (a =? 0)%Z; [discriminate|].
  destruct (round_binary64 _ _) as [[m ex]|]; [discriminate|]. now intros [= <-].
Qed.

(** The only exceptions that leave [calculate_area] are the [ValueError]
    of [int] and the [OverflowError] of the division, and nothing has
    been sent when one does. *)
Theorem calculate_area_raises_only (w : World) (request : str) (e : exn) :
  returned (calculate_area w request) = Raise e ->
  (e = ValueError \/ e = OverflowError) /\ sent (calculate_area w request) = [].
Proof.
  unfold calculate_area.
  destruct (negb (length _ =? 2)%nat).
  { rewrite internal_server_error_response; [discriminate|].
    now rewrite is_ascii_app, is_ascii_str_of_int. }
  destruct (negb (isnumeric _) || negb (isnumeric _)).
  { rewrite internal_server_error_response; [discriminate|reflexivity]. }
  destruct (int_of_str _) as [h|e1] eqn:Eh.
  2:{ cbv [io_bind lift returned sent fst snd]. intros H.
      assert (e = e1) as -> by congruence.
      apply int_of_str_raises in Eh. now split; [left|]. }
  rewrite bind_lift_ok. clear Eh.
  destruct (int_of_str _) as [wd|e2] eqn:Ew.
  2:{ cbv [io_bind lift returned sent fst snd]. intros H.
      assert (e = e2) as -> by congruence.
      apply int_of_str_raises in Ew. now split; [left|]. }
  rewrite bind_lift_ok. clear Ew.
  destruct (int_truediv _ _) as [q|e3] eqn:Eq.
  2:{ cbv [io_bind lift returned sent fst snd]. intros H.
      assert (e = e3) as -> by congruence.
      apply halving_raises in Eq. now split; [right|]. }
  rewrite bind_lift_ok. cbv zeta.
  rewrite encode_ascii.
  - rewrite bind_lift_ok, ok_response_data by now left. discriminate.
  - destruct (endswith _ _);
      [apply is_ascii_firstn|]; apply is_ascii_float_str.
Qed.

Lemma calculate_area_raises_only_witness :
  returned (calculate_area demo_world
              (query_request (lit "calculate-area") (lit "height") [178%N]
                             (lit "width") (lit "2")))
  = Raise ValueError
  /\ sent (calculate_area demo_world
             (query_request (lit "calculate-area") (lit "height") [178%N]
                            (lit "width") (lit "2"))) = [].
Proof.
  assert (H : returned (calculate_area demo_world
                (query_request (lit "calculate-area") (lit "height") [178%N]
                               (lit "width") (lit "2"))) = Raise ValueError)
    by (vm_compute; reflexivity).
  split; [exact H|].
  exact (proj2 (calculate_area_raises_only demo_world _ _ H)).
Defined.

(** ** Quotients beyond the doubles *)

Section Overflow.
Local Open Scope Z_scope.

Lemma floor_log2_ratio_half a : 2 <= a -> floor_log2_ratio a 2 = Z.log2 a - 1.
Proof.
  intros Ha. destruct (Z.log2_spec a ltac:(lia)) as [Hlo _].
  assert (Hb : 1 <= Z.log2 a).
  { change 1 with (Z.log2 2). apply Z.log2_le_mono. lia. }
  unfold floor_log2_ratio. change (Z.log2 2) with 1.
  set (b := Z.log2 a) in *.
  replace (Z.max 0 (- (b - 1))) with 0 by lia.
  replace (Z.max 0 (b - 1)) with (b - 1) by lia.
  rewrite Z.pow_0_r, Z.mul_1_r, <- Z.pow_succ_r by lia.
  replace (Z.succ (b - 1)) with b by lia.
  destruct (Z.ltb_spec a (2 ^ b)); [lia|reflexivity].
Qed.

Lemma round_binary64_overflow a : 2 ^ 1025 <= a -> round_binary64 a 2 = None.
Proof.
  intros Ha.
  assert (Hpos : 0 < 2 ^ 1025) by (apply Z.pow_pos_nonneg; lia).
  assert (Hb : 1025 <= Z.log2 a).
  { rewrite <- (Z.log2_pow2 1025) by lia. apply Z.log2_le_mono. exact Ha. }
  unfold round_binary64. rewrite floor_log2_ratio_half by lia.
  set (b := Z.log2 a) in *.
  replace (Z.max (b - 1 - 52) (- 1074)) with (b - 53) by lia.
  destruct (_ =? 2 ^ 53).
  - destruct (Z.ltb_spec 1024 (b - 53 + 1 + 53)); [reflexivity|lia].
  - destruct (Z.ltb_spec 1024 (b - 53 + 53)); [reflexivity|lia].
Qed.

(** When the product of the two values, of at most 4300 digits each, is
    [2 ^ 1025] or more its half is no double: the division raises
    [OverflowError] and no response is sent. *)
Theorem huge_product_raises_overflow (w : World) (name height width : str) :
  all_digits height = true -> all_digits width = true ->
  len height <= max_str_digits -> len width <= max_str_digits ->
  2 ^ 1025 <= digits_value height * digits_value width ->
  calculate_area w (area_request name height width) = ([], Raise OverflowError).
Proof.
  intros Hh Hw Hlh Hlw Hbig.
  destruct (area_request_parameters name height width Hh Hw) as (Hp & Hph & Hpw).
  cbv zeta in Hp, Hph, Hpw.
  unfold calculate_area. rewrite Hph, Hpw, Hp. cbn [length Nat.eqb negb].
  rewrite !isnumeric_digits by assumption. cbn [negb orb].
  rewrite !int_of_digits, !bind_lift_ok by assumption.
  set (p := digits_value height * digits_value width) in *.
  assert (Hpos : 0 < 2 ^ 1025) by (apply Z.pow_pos_nonneg; lia).
  unfold int_truediv. change (2 =? 0) with false. cbv iota.
  destruct (Z.eqb_spec p 0); [lia|].
  rewrite Z.abs_eq by lia. change (Z.abs 2) with 2.
  now rewrite round_binary64_overflow.
Qed.

End Overflow.

Lemma huge_product_raises_overflow_witness :
  all_digits (49%N :: repeat 48%N 310) = true
  /\ (len (49%N :: repeat 48%N 310) <= max_str_digits)%Z
  /\ (2 ^ 1025 <= digits_value (49%N :: repeat 48%N 310) * digits_value (lit "1"))%Z
  /\ calculate_area demo_world
       (area_request (lit "calculate-area") (49%N :: repeat 48%N 310) (lit "1"))
     = ([], Raise OverflowError).
Proof.
  assert (H1 : all_digits (49%N :: repeat 48%N 310) = true) by (vm_compute; reflexivity).
  assert (H2 : (2 ^ 1025 <= digits_value (49%N :: repeat 48%N 310)
                            * digits_value (lit "1"))%Z)
    by (vm_compute; discriminate).
  assert (H3 : (len (49%N :: repeat 48%N 310) <= max_str_digits)%Z)
    by (vm_compute; discriminate).
  assert (H4 : (len (lit "1") <= max_str_digits)%Z) by (vm_compute; discriminate).
  split; [exact H1|]. split; [exact H3|]. split; [exact H2|].
  exact (huge_product_raises_overflow demo_world (lit "calculate-area")
           (49%N :: repeat 48%N 310) (lit "1") H1 eq_refl H3 H4 H2).
Defined.

(* ================================================================== *)
(** * The connection loop and the accept loop *)
(* ================================================================== *)

Lemma handle_client_step w client_request rest :
  handle_client (Recv w client_request :: rest)
  = if fst (validate_http_request client_request) then
      match handle_client_request w (snd (validate_http_request client_request)) with
      | (out, Ok code) =>
          if (code =? CLOSE_SERVER_STATUS_CODE)%Z
          then (out, Ok (Some CLOSE_SERVER_STATUS_CODE))
          else (out ++ sent (handle_client rest), returned (handle_client rest))
      | (out, Raise e) => (out, Raise e)
      end
    else ([], Ok None).
Proof.
  cbn [handle_client].
  destruct (validate_http_request client_request) as [[|] resource]; [|reflexivity].
  cbn [fst snd]. destruct (handle_client_request w resource) as [out [code|e]];
    [|reflexivity].
  cbn [io_bind]. destruct (code =? CLOSE_SERVER_STATUS_CODE)%Z.
  - cbn. now rewrite app_nil_r.
  - now destruct (handle_client rest).
Qed.

(** What is read first on a connection stops its loop unless it is an
    answered request; what is sent until then is the response to it. *)
Lemma handle_client_stops ev rest :
  answered ev = false ->
  sent (handle_client (ev :: rest)) = response_to ev.
Proof.
  destruct ev as [w client_request| |]; [|reflexivity|reflexivity].
  rewrite handle_client_step. cbn [answered response_to].
  destruct (fst (validate_http_request client_request)); [|reflexivity].
  cbn [andb].
  destruct (handle_client_request w (snd (validate_http_request client_request)))
    as [out [code|e]]; [|reflexivity].
  cbn [returned sent fst snd]. intros H. apply negb_false_iff in H.
  now rewrite H.
Qed.

(** The requests of a connection are answered in the order in which
    they are read and none twice: the connection consists of requests
    that were answered, followed by nothing (the peer closed, and
    [handle_client] returns [None]) or by an event that is no answered
    request, with which the loop ends; what is sent is the responses to
    these events, one after the other. *)
Theorem connection_answers_requests_in_order (conn : list recv_event) :
  exists served rest,
    conn = served ++ rest
    /\ forallb answered served = true
    /\ match rest with
       | [] => returned (handle_client conn) = Ok None
       | ev :: _ => answered ev = false
       end
    /\ sent (handle_client conn)
       = concat (List.map response_to (served ++ firstn 1 rest)).
Proof.
  induction conn as [|ev tl (served & rest & Hconn & Hserved & Hrest & Hsent)].
  - exists [], []. repeat apply conj; reflexivity.
  - destruct (answered ev) eqn:Hans.
    + exists (ev :: served), rest.
      destruct ev as [w client_request| |]; try discriminate.
      cbn [answered] in Hans. apply andb_true_iff in Hans as [Hv Hcode].
      assert (E : handle_client (Recv w client_request :: tl)
                  = (response_to (Recv w client_request) ++ sent (handle_client tl),
                     returned (handle_client tl))).
      { rewrite handle_client_step. cbn [response_to]. rewrite Hv.
        destruct (handle_client_request w (snd (validate_http_request client_request)))
          as [out [code|e]]; [|discriminate].
        cbn [returned snd] in Hcode. apply negb_true_iff in Hcode.
        now rewrite Hcode. }
      repeat apply conj.
      * now rewrite Hconn.
      * cbn [forallb answered]. rewrite Hv, Hserved.
        cbn [andb]. now rewrite Hcode.
      * destruct rest; [|exact Hrest]. now rewrite E.
      * rewrite E. cbn [sent fst]. rewrite Hsent. reflexivity.
    + exists [], (ev :: tl). repeat apply conj; try reflexivity; [exact Hans|].
      rewrite (handle_client_stops ev tl Hans). cbn. now rewrite app_nil_r.
Qed.



(** ** The accept loop *)

Lemma handle_client_exit conn :
  starts_with_exit conn = true ->
  handle_client conn = ([], Ok (Some CLOSE_SERVER_STATUS_CODE)).
Proof.
  destruct conn as [|[w client_request| |] rest]; try discriminate.
  cbn [starts_with_exit]. intros H. apply andb_true_iff in H as [Hv Hexit].
  rewrite handle_client_step, Hv.
  destruct (handle_client_request_cases w (snd (validate_http_request client_request)))
    as [[_ E] | [E _]]; [now rewrite E|congruence].
Qed.

Lemma handle_client_without_request conn :
  starts_without_request conn = true ->
  handle_client conn = ([], Ok None)
  \/ handle_client conn = ([], Raise SocketTimeout).
Proof.
  destruct conn as [|[w client_request| |] rest];
    [now left| |discriminate|now right].
  cbn [starts_without_request]. intros H. apply negb_true_iff in H.
  left. now rewrite handle_client_step, H.
Qed.

Lemma main_continues conn rest out r :
  handle_client conn = (out, r) ->
  r = Ok None \/ r = Raise SocketTimeout ->
  main (conn :: rest) = (out :: fst (main rest), snd (main rest)).
Proof.
  intros E Hr. cbn [main]. rewrite E.
  destruct Hr as [-> | ->]; now destruct (main rest).
Qed.

(** Once the server has stopped, further connections are not served;
    while it is listening, the next ones are served as if it had just
    started. *)
Lemma main_app pre post :
  main (pre ++ post)
  = match snd (main pre) with
    | Stopped => main pre
    | Listening => (fst (main pre) ++ fst (main post), snd (main post))
    end.
Proof.
  induction pre as [|conn pre IH];
    [cbn [app main fst snd]; now destruct (main post)|].
  cbn [app main].
  destruct (handle_client conn) as [out [[code|]|e]].
  - destruct (code =? CLOSE_SERVER_STATUS_CODE)%Z; [reflexivity|].
    rewrite IH. destruct (main pre) as [outs []]; reflexivity.
  - rewrite IH. destruct (main pre) as [outs []]; reflexivity.
  - destruct e; try reflexivity.
    rewrite IH. destruct (main pre) as [outs []]; reflexivity.
Qed.

(** A client whose first request asks for a URL that ends with [exit]
    stops the server at that connection: if the server is still
    listening after the connections before it, that client gets no
    answer, the server stops, and the connections after it are never
    served.  If an earlier connection already stopped the server,
    nothing changes. *)
Theorem exit_request_stops_the_server (pre : list (list recv_event))
    (conn : list recv_event) (post : list (list recv_event)) :
  starts_with_exit conn = true ->
  snd (main (pre ++ conn :: post)) = Stopped
  /\ (snd (main pre) = Listening ->
      main (pre ++ conn :: post) = (fst (main pre) ++ [[]], Stopped))
  /\ (snd (main pre) = Stopped ->
      main (pre ++ conn :: post) = main pre).
Proof.
  intros Hexit. rewrite main_app.
  assert (E : main (conn :: post) = ([[]], Stopped)).
  { cbn [main]. now rewrite (handle_client_exit conn Hexit). }
  rewrite E. destruct (main pre) as [outs []]; cbn [fst snd].
  - repeat apply conj; [reflexivity|discriminate|reflexivity].
  - repeat apply conj; [reflexivity|reflexivity|discriminate].
Qed.

Lemma exit_request_stops_the_server_witness :
  starts_with_exit
    [Recv demo_world (lit "GET /anything/noexit HTTP/1.1" ++ crlf ++ crlf)] = true
  /\ snd (main [[Recv demo_world (lit "GET /missing.html HTTP/1.1" ++ crlf ++ crlf)]])
     = Listening
  /\ main [[Recv demo_world (lit "GET /missing.html HTTP/1.1" ++ crlf ++ crlf)];
           [Recv demo_world (lit "GET /anything/noexit HTTP/1.1" ++ crlf ++ crlf)];
           [Recv demo_world (lit "GET / HTTP/1.1" ++ crlf ++ crlf)]]
     = ([[response_404 demo_world]; []], Stopped).
Proof.
  assert (H : starts_with_exit
    [Recv demo_world (lit "GET /anything/noexit HTTP/1.1" ++ crlf ++ crlf)] = true)
    by (vm_compute; reflexivity).
  assert (L : snd (main [[Recv demo_world
                            (lit "GET /missing.html HTTP/1.1" ++ crlf ++ crlf)]])
              = Listening) by (vm_compute; reflexivity).
  split; [exact H|]. split; [exact L|].
  destruct (exit_request_stops_the_server
              [[Recv demo_world (lit "GET /missing.html HTTP/1.1" ++ crlf ++ crlf)]]
              [Recv demo_world (lit "GET /anything/noexit HTTP/1.1" ++ crlf ++ crlf)]
              [[Recv demo_world (lit "GET / HTTP/1.1" ++ crlf ++ crlf)]] H)
    as (_ & Hstop & _).
  etransitivity; [exact (Hstop L)|].
  vm_compute. reflexivity.
Defined.

(** Clients that close the connection, time out, or send text that is
    not a valid request get no answer and do not stop the server. *)
Theorem invalid_requests_do_not_stop_the_server (connections : list (list recv_event)) :
  forallb starts_without_request connections = true ->
  main connections = (List.map (fun _ => []) connections, Listening).
Proof.
  induction connections as [|conn rest IH]; [reflexivity|].
  cbn [forallb]. intros H. apply andb_true_iff in H as [Hconn Hrest].
  specialize (IH Hrest).
  destruct (handle_client_without_request conn Hconn) as [E | E];
    rewrite (main_continues conn rest [] _ E) by tauto;
    now rewrite IH.
Qed.

Lemma invalid_requests_do_not_stop_the_server_witness :
  forallb starts_without_request
    [[]; [RecvTimeout]; [Recv demo_world (lit "POST / HTTP/1.1" ++ crlf ++ crlf)]] = true
  /\ main [[]; [RecvTimeout]; [Recv demo_world (lit "POST / HTTP/1.1" ++ crlf ++ crlf)]]
     = ([[]; []; []], Listening).
Proof.
  split; [reflexivity|].
  apply (invalid_requests_do_not_stop_the_server
           [[]; [RecvTimeout]; [Recv demo_world (lit "POST / HTTP/1.1" ++ crlf ++ crlf)]]).
  reflexivity.
Defined.

(** Bytes that are not UTF-8 are no request that is merely invalid:
    [decode] raises, the exception leaves [handle_client], and the
    server stops without having answered; the connections after it are
    never served. *)
Theorem undecodable_bytes_stop_the_server (pre : list (list recv_event))
    (rest : list recv_event) (post : list (list recv_event)) :
  snd (main pre) = Listening ->
  main (pre ++ (RecvUndecodable :: rest) :: post) = (fst (main pre) ++ [[]], Stopped).
Proof.
  intros L. rewrite main_app, L. reflexivity.
Qed.

Lemma undecodable_bytes_stop_the_server_witness :
  snd (main [[Recv demo_world (lit "POST / HTTP/1.1" ++ crlf ++ crlf)]]) = Listening
  /\ main [[Recv demo_world (lit "POST / HTTP/1.1" ++ crlf ++ crlf)];
           [RecvUndecodable];
           [Recv demo_world (lit "GET / HTTP/1.1" ++ crlf ++ crlf)]]
     = ([[]; []], Stopped).
Proof.
  assert (L : snd (main [[Recv demo_world (lit "POST / HTTP/1.1" ++ crlf ++ crlf)]])
              = Listening) by (vm_compute; reflexivity).
  split; [exact L|].
  etransitivity;
    [exact (undecodable_bytes_stop_the_server
              [[Recv demo_world (lit "POST / HTTP/1.1" ++ crlf ++ crlf)]] []
              [[Recv demo_world (lit "GET / HTTP/1.1" ++ crlf ++ crlf)]] L)|].
  vm_compute. reflexivity.
Defined.

(** The server stops only if on some connection [handle_client] returned
    [CLOSE_SERVER_STATUS_CODE] or raised something other than a timeout. *)
Theorem server_stops_only_on_exit_or_error (connections : list (list recv_event)) :
  snd (main connections) = Stopped ->
  exists conn,
    In conn connections
    /\ (returned (handle_client conn) = Ok (Some CLOSE_SERVER_STATUS_CODE)
        \/ exists e, e <> SocketTimeout /\ returned (handle_client conn) = Raise e).
Proof.
  induction connections as [|conn rest IH]; [discriminate|].
  cbn [main].
  destruct (handle_client conn) as [out [[code|]|e]] eqn:E.
  - destruct (Z.eqb_spec code CLOSE_SERVER_STATUS_CODE) as [->|_].
    + intros _. exists conn. split; [now left|]. left. now rewrite E.
    + destruct (main rest) as [outs en]. cbn [snd] in *. intros H.
      destruct (IH H) as (c & Hin & Hc). exists c. split; [now right|exact Hc].
  - destruct (main rest) as [outs en]. cbn [snd] in *. intros H.
    destruct (IH H) as (c & Hin & Hc). exists c. split; [now right|exact Hc].
  - assert (Hstop : e <> SocketTimeout ->
              exists c, In c (conn :: rest)
                /\ (returned (handle_client c) = Ok (Some CLOSE_SERVER_STATUS_CODE)
                    \/ exists e', e' <> SocketTimeout
                                  /\ returned (handle_client c) = Raise e')).
    { intros Hne. exists conn. split; [now left|]. right. exists e.
      split; [exact Hne|]. now rewrite E. }
    destruct e; try (intros _; apply Hstop; discriminate).
    destruct (main rest) as [outs en]. cbn [snd] in *. intros H.
    destruct (IH H) as (c & Hin & Hc). exists c. split; [now right|exact Hc].
Qed.

Lemma server_stops_only_on_exit_or_error_witness :
  snd (main [[Recv demo_world
                (lit "GET /calculate-area?height=" ++ [178%N] ++ lit "&width=2 HTTP/1.1")]])
  = Stopped
  /\ exists conn,
       In conn [[Recv demo_world
                   (lit "GET /calculate-area?height=" ++ [178%N]
                    ++ lit "&width=2 HTTP/1.1")]]
       /\ (returned (handle_client conn) = Ok (Some CLOSE_SERVER_STATUS_CODE)
           \/ exists e, e <> SocketTimeout /\ returned (handle_client conn) = Raise e).
Proof.
  assert (H : snd (main [[Recv demo_world
                (lit "GET /calculate-area?height=" ++ [178%N]
                 ++ lit "&width=2 HTTP/1.1")]]) = Stopped)
    by (vm_compute; reflexivity).
  split; [exact H|].
  exact (server_stops_only_on_exit_or_error _ H).
Defined.
